(** * GhanaMarket: the storefront pages and the store they query

    The repository holds three React components.  Two of them carry logic:
    [HomePage] (it loads the top-level categories and the product listing
    through the Supabase client) and [ProductFormPage] (it edits a draft
    and writes it with one insert or one update).  Both are embedded here
    as state-passing functions over the component state and over a model of
    the hosted store. *)

From Stdlib Require Import Ascii QArith Qcanon.
From stdpp Require Import gmap strings list sorting pretty.

Local Open Scope Z_scope.

(** ** JavaScript strings

    Code units are the 8-bit characters of [string]; that covers the
    Latin-1 range of JavaScript's UTF-16 code units. *)

Module JS.

(** A string is truthy when it is not empty. *)
Definition truthy (s : string) : bool :=
  match s with
  | EmptyString => false
  | String _ _ => true
  end.

(** [WhiteSpace] and [LineTerminator] code points below 256: TAB, LF, VT,
    FF, CR, SP and NBSP. *)
Definition is_white_space (c : ascii) : bool :=
  match c with
  | "009" | "010" | "011" | "012" | "013" | " " | "160" => true
  | _ => false
  end%char.

Fixpoint trim_start (s : string) : string :=
  match s with
  | EmptyString => EmptyString
  | String c s' => if is_white_space c then trim_start s' else s
  end.

Definition trim_end (s : string) : string :=
  String.rev (trim_start (String.rev s)).

(** [String.prototype.trim]. *)
Definition trim (s : string) : string := trim_end (trim_start s).

(** [a || b] on strings. *)
Definition or_else (a b : string) : string := if truthy a then a else b.

End JS.

(** ** Values and rows of the store

    A row is a JSON object: a finite map from column names to values.  An
    absent column reads as SQL [NULL]. *)

Inductive value : Type :=
  | VNull
  | VStr (s : string)
  | VNum (q : Qc)
  | VTime (t : Z)            (* an instant; [toISOString] keeps its order *)
  | VArr (l : list string).

Global Instance value_eq_dec : EqDecision value.
Proof. solve_decision. Defined.

Abbreviation row := (gmap string value).

Definition col (r : row) (c : string) : value := default VNull (r !! c).

Definition is_null (v : value) : bool :=
  match v with VNull => true | _ => false end.

(** SQL [=]: never true of [NULL]. *)
Definition value_eqb (a b : value) : bool :=
  negb (is_null a) && negb (is_null b) && bool_decide (a = b).

Definition value_rank (v : value) : nat :=
  match v with
  | VStr _ => 0 | VNum _ => 1 | VTime _ => 2 | VArr _ => 3 | VNull => 4
  end.

(** The order [ORDER BY] sorts with.  [NULL] sorts as larger than every
    other value, as Postgres has it.  A column holds one type of value, so
    the order between types is only there to make the relation total;
    arrays are not told apart (no query of the pages sorts on one). *)
Definition value_leb (a b : value) : bool :=
  match a, b with
  | VStr s, VStr t => String.leb s t
  | VNum p, VNum q => bool_decide (p ≤ q)%Qc
  | VTime s, VTime t => (s <=? t)%Z
  | _, _ => (value_rank a <=? value_rank b)%nat
  end.

(** ** Sorting

    A stable insertion sort: rows that the order does not tell apart stay
    in the order the table holds them.  (The store promises nothing about
    such rows; the model picks this one order.) *)

Fixpoint insert_sorted {A} (leb : A → A → bool) (x : A) (l : list A) : list A :=
  match l with
  | [] => [x]
  | y :: l' => if leb x y then x :: l else y :: insert_sorted leb x l'
  end.

Definition stable_sort {A} (leb : A → A → bool) (l : list A) : list A :=
  foldr (insert_sorted leb) [] l.

(** ** The query builder of the Supabase client

    Each builder call adds a parameter to the request; the order of the
    calls does not matter to the store, which always filters, then sorts,
    then truncates. *)

Inductive constraint : Type :=
  | FEq (column : string) (v : value)      (* .eq(column, v) *)
  | FIs (column : string) (v : value)      (* .is(column, v) *)
  | FOr (logic : string).                  (* .or(logic) *)

Record query : Type := Query {
  q_from : string;
  q_select : string;
  q_filters : list constraint;
  q_order : list (string * bool);          (* column, ascending *)
  q_limit : option nat
}.

Definition from_ (table : string) : query :=
  Query table "*" [] [] None.

Definition select_ (columns : string) (q : query) : query :=
  Query (q_from q) columns (q_filters q) (q_order q) (q_limit q).

Definition add_filter (f : constraint) (q : query) : query :=
  Query (q_from q) (q_select q) (q_filters q ++ [f]) (q_order q) (q_limit q).

Definition eq_ (column : string) (v : value) : query → query :=
  add_filter (FEq column v).

Definition is_ (column : string) (v : value) : query → query :=
  add_filter (FIs column v).

Definition or_ (logic : string) : query → query :=
  add_filter (FOr logic).

Definition order_ (column : string) (ascending : bool) (q : query) : query :=
  Query (q_from q) (q_select q) (q_filters q) (q_order q ++ [(column, ascending)])
        (q_limit q).

Definition limit_ (n : nat) (q : query) : query :=
  Query (q_from q) (q_select q) (q_filters q) (q_order q) (Some n).

(** Method chaining. *)
Notation "q '.>' f" := (f q) (at level 45, left associativity, only parsing).

(** ** The store

    The hosted store (PostgREST over Postgres) is no part of the repository.
    Its model follows the documented reading of the requests the pages
    send. *)

Module Store.

(** *** ILIKE *)

Definition lower (c : ascii) : ascii :=
  let n := N_of_ascii c in
  if ((65 <=? n) && (n <=? 90))%N then ascii_of_N (n + 32) else c.

Definition eqb_ci (a b : ascii) : bool := bool_decide (lower a = lower b).

(** What a character of a pattern stands for. *)
Inductive token : Type := AnyRun | AnyOne | Escape | Literal.

Definition classify (c : ascii) : token :=
  if bool_decide (c = "%"%char) || bool_decide (c = "*"%char) then AnyRun
  else if bool_decide (c = "_"%char) then AnyOne
  else if bool_decide (c = "\"%char) then Escape
  else Literal.

Definition uncons (f : ascii → string → bool) (s : string) : bool :=
  match s with
  | EmptyString => false
  | String e s' => f e s'
  end.

(** In a pattern [%] stands for any run of characters (PostgREST accepts
    [*] for it), [_] for any one character, and a backslash makes the
    character after it literal.  Every other character stands for itself,
    up to the case of ASCII letters.  A pattern that ends in a lone
    backslash matches nothing. *)
Fixpoint like (p : string) : string → bool :=
  match p with
  | EmptyString => fun s => negb (JS.truthy s)
  | String c p' =>
    match classify c with
    | AnyRun =>
      fix skip (s : string) : bool :=
        like p' s || match s with
                     | EmptyString => false
                     | String _ s' => skip s'
                     end
    | AnyOne => uncons (fun _ s' => like p' s')
    | Escape =>
      match p' with
      | EmptyString => fun _ => false
      | String d p'' => uncons (fun e s' => eqb_ci d e && like p'' s')
      end
    | Literal => uncons (fun e s' => eqb_ci c e && like p' s')
    end
  end.

(** *** The logic string of [or]

    [or] takes a comma-separated list of conditions, each written
    [column.operator.operand].  The model reads the list flat: it knows
    neither quoted operands nor nested [and(...)]/[or(...)] groups, and
    of the operators only [ilike]. *)

(** The text before the first [sep] and the text after it. *)
Fixpoint break (sep : ascii) (s : string) : option (string * string) :=
  match s with
  | EmptyString => None
  | String c s' =>
    if bool_decide (c = sep) then Some (EmptyString, s')
    else '(a, b) ← break sep s'; Some (String c a, b)
  end.

Fixpoint split_on (sep : ascii) (s : string) : list string :=
  match s with
  | EmptyString => [EmptyString]
  | String c s' =>
    if bool_decide (c = sep) then EmptyString :: split_on sep s'
    else match split_on sep s' with
         | h :: t => String c h :: t
         | [] => [String c EmptyString]
         end
  end.

(** [c] is among the characters of [s]. *)
Fixpoint occurs (c : ascii) (s : string) : bool :=
  match s with
  | EmptyString => false
  | String d s' => bool_decide (d = c) || occurs c s'
  end.

Record cond : Type := Cond {
  c_column : string;
  c_operator : string;
  c_operand : string
}.

Definition parse_cond (s : string) : option cond :=
  '(column, rest) ← break "." s;
  '(operator, operand) ← break "." rest;
  if JS.truthy column then Some (Cond column operator operand) else None.

Definition parse_logic (s : string) : option (list cond) :=
  mapM parse_cond (split_on "," s).

Definition eval_cond (c : cond) : option (row → bool) :=
  if bool_decide (c_operator c = "ilike") then
    Some (fun r => match col r (c_column c) with
                   | VStr text => like (c_operand c) text
                   | _ => false
                   end)
  else None.

(** What a filter asks of a row; [None] when the store cannot read it. *)
Definition compile (f : constraint) : option (row → bool) :=
  match f with
  | FEq column v => Some (fun r => value_eqb (col r column) v)
  | FIs column VNull => Some (fun r => is_null (col r column))
  | FIs _ _ => None
  | FOr logic =>
    conds ← parse_logic logic;
    tests ← mapM eval_cond conds;
    Some (fun r => existsb (fun t => t r) tests)
  end.

(** The filters of a request are taken together. *)
Definition where_ (fs : list constraint) : option (row → bool) :=
  tests ← mapM compile fs;
  Some (fun r => forallb (fun t => t r) tests).

(** *** ORDER BY and LIMIT *)

Definition clause_leb (cl : string * bool) (r1 r2 : row) : bool :=
  if cl.2 then value_leb (col r1 cl.1) (col r2 cl.1)
  else value_leb (col r2 cl.1) (col r1 cl.1).

(** The first clause is the major key: it is sorted on last. *)
Definition order_by (clauses : list (string * bool)) (rows : list row) : list row :=
  foldr (fun cl acc => stable_sort (clause_leb cl) acc) rows clauses.

Definition truncate (n : option nat) (rows : list row) : list row :=
  match n with
  | Some k => take k rows
  | None => rows
  end.

(** *** Requests and answers *)

Record PostgrestError : Type := { message : string }.

Record response : Type := Response {
  data : option (list row);
  error : option PostgrestError
}.

Definition failed (e : PostgrestError) : response := Response None (Some e).

(** The state of the store: its tables (rows in storage order), the
    error it answers the next request with when it is unreachable or
    refuses it, and what it fills a new row's [id] and [created_at]
    with. *)
Record server : Type := Server {
  tables : gmap string (list row);
  refusal : option PostgrestError;
  clock : Z;
  next_id : string
}.

Definition unknown_relation : PostgrestError :=
  {| message := "relation does not exist" |}.
Definition unreadable_filter : PostgrestError :=
  {| message := "failed to parse filter" |}.
Definition duplicate_key : PostgrestError :=
  {| message := "duplicate key value violates unique constraint" |}.

(** A read. *)
Definition run_select (srv : server) (q : query) : response :=
  match refusal srv with
  | Some e => failed e
  | None =>
    match tables srv !! q_from q with
    | None => failed unknown_relation
    | Some rows =>
      match where_ (q_filters q) with
      | None => failed unreadable_filter
      | Some test =>
        Response
          (Some (truncate (q_limit q) (order_by (q_order q) (List.filter test rows))))
          None
      end
    end
  end.

(** An update sets the columns of the payload in every row the filters
    select and leaves the other columns and the other rows alone.  It
    answers without rows and without error, also when no row was
    selected.  A refused request changes nothing. *)
Definition run_update (srv : server) (q : query) (payload : row)
    : response * server :=
  match refusal srv with
  | Some e => (failed e, srv)
  | None =>
    match tables srv !! q_from q with
    | None => (failed unknown_relation, srv)
    | Some rows =>
      match where_ (q_filters q) with
      | None => (failed unreadable_filter, srv)
      | Some test =>
        let rows' := (fun r => if test r then payload ∪ r else r) <$> rows in
        (Response None None,
         Server (<[q_from q := rows']> (tables srv)) (refusal srv) (clock srv)
                (next_id srv))
      end
    end
  end.

(** Modelled from the spec: the column defaults of the products table,
    whose schema is not in the repository.  The spec has a created
    product take a new identifier and the instant of its creation as
    creation timestamp; the pages never send either.  [clock] is the
    store's own reading of that instant; the browser's reading of it is
    the [now] that [handleSubmit] takes. *)
Definition column_defaults (srv : server) : row :=
  {[ "id" := VStr (next_id srv); "created_at" := VTime (clock srv) ]}.

(** An insert appends the payload, completed with the column defaults.
    The identifier is the primary key: a second row with the same one is
    refused. *)
Definition run_insert (srv : server) (q : query) (payload : row)
    : response * server :=
  match refusal srv with
  | Some e => (failed e, srv)
  | None =>
    match tables srv !! q_from q with
    | None => (failed unknown_relation, srv)
    | Some rows =>
      let r := payload ∪ column_defaults srv in
      if existsb (fun r' => value_eqb (col r' "id") (col r "id")) rows
      then (failed duplicate_key, srv)
      else (Response None None,
            Server (<[q_from q := rows ++ [r]]> (tables srv)) (refusal srv)
                   (clock srv) (next_id srv))
    end
  end.

End Store.

(** ** HomePage

    Of the component state, the geolocation is left out: nothing that is
    loaded depends on it. *)

Module HomePage.
Import Store.

Record state : Type := State {
  categories : list row;
  products : list row;
  loading : bool;
  selectedCategory : option string;
  searchQuery : string
}.

(** The values [useState] starts with. *)
Definition initial : state := State [] [] true None "".

Definition setCategories (v : list row) (st : state) : state :=
  State v (products st) (loading st) (selectedCategory st) (searchQuery st).
Definition setProducts (v : list row) (st : state) : state :=
  State (categories st) v (loading st) (selectedCategory st) (searchQuery st).
Definition setLoading (v : bool) (st : state) : state :=
  State (categories st) (products st) v (selectedCategory st) (searchQuery st).
Definition setSelectedCategory (v : option string) (st : state) : state :=
  State (categories st) (products st) (loading st) v (searchQuery st).
Definition setSearchQuery (v : string) (st : state) : state :=
  State (categories st) (products st) (loading st) (selectedCategory st) v.

(** The request of [loadCategories]; [order] sorts ascending unless told
    otherwise. *)
Definition categories_query : query :=
  from_ "categories" .> select_ "*" .> is_ "parent_id" VNull
    .> order_ "display_order" true.

Definition loadCategories (srv : server) (st : state) : state :=
  let resp := run_select srv categories_query in
  match data resp with
  | Some d => setCategories d st
  | None => st
  end.

(** [if (selectedCategory)]: neither [null] nor the empty string. *)
Definition chosen (selectedCategory : option string) : option string :=
  match selectedCategory with
  | Some c => if JS.truthy c then Some c else None
  | None => None
  end.

(** The request [loadProducts] builds from the two filter inputs.  The
    column list is written as the client sends it, without white space.
    The embedded seller summary is display data; the store model returns
    the product rows without it. *)
Definition products_query (selectedCategory : option string)
    (searchQuery : string) : query :=
  let query :=
    from_ "products"
      .> select_ "*,seller_profiles(store_name,rating_avg,logo_url)"
      .> eq_ "status" (VStr "active")
      .> order_ "created_at" false
      .> limit_ 50 in
  let query :=
    match chosen selectedCategory with
    | Some c => query .> eq_ "category_id" (VStr c)
    | None => query
    end in
  let query :=
    if JS.truthy searchQuery then
      query .> or_ ("title.ilike.%" +:+ searchQuery
                      +:+ "%,description.ilike.%" +:+ searchQuery +:+ "%")
    else query in
  query.

Definition loadProducts (srv : server) (st : state) : state :=
  let st := setLoading true st in
  let resp := run_select srv (products_query (selectedCategory st) (searchQuery st)) in
  let st := match data resp with
            | Some d => setProducts d st
            | None => st
            end in
  setLoading false st.

(** Mounting the page runs both effects: the one without dependencies,
    then the one that depends on the two filter inputs. *)
Definition mount (srv : server) : state :=
  loadProducts srv (loadProducts srv (loadCategories srv initial)).

(** A change of either filter input re-runs [loadProducts]. *)
Definition pick_category (c : option string) (srv : server) (st : state) : state :=
  loadProducts srv (setSelectedCategory c st).
Definition search (text : string) (srv : server) (st : state) : state :=
  loadProducts srv (setSearchQuery text st).

End HomePage.

(** ** ProductFormPage

    [loadProduct], which fills the form from the stored product when one is
    edited, is left out together with the [loading] flag it clears: it
    formats numbers, and no statement below starts from a loaded form. *)

Module ProductFormPage.
Import Store.

Record formData : Type := FormData {
  title : string;
  description : string;
  price : string;
  category : string;
  stock_count : string;
  condition : string;
  images : list string
}.

Inductive message_type : Type := success | failure.

Record state : Type := State {
  form : formData;
  imageInput : string;
  submitting : bool;
  message : option (message_type * string)
}.

(** The form a page without a product to edit starts with. *)
Definition initial : state :=
  State (FormData "" "" "" "" "" "new" []) "" false None.

Definition setFormData (v : formData) (st : state) : state :=
  State v (imageInput st) (submitting st) (message st).
Definition setImageInput (v : string) (st : state) : state :=
  State (form st) v (submitting st) (message st).
Definition setSubmitting (v : bool) (st : state) : state :=
  State (form st) (imageInput st) v (message st).
Definition setMessage (v : option (message_type * string)) (st : state) : state :=
  State (form st) (imageInput st) (submitting st) v.

Definition with_images (v : list string) (fd : formData) : formData :=
  FormData (title fd) (description fd) (price fd) (category fd) (stock_count fd)
           (condition fd) v.

Definition addImage (st : state) : state :=
  if JS.truthy (JS.trim (imageInput st)) && (length (images (form st)) <? 5)%nat
  then setImageInput ""
         (setFormData (with_images (images (form st) ++ [imageInput st]) (form st)) st)
  else st.

(** [Array.prototype.filter] with a test on the index. *)
Fixpoint filter_index {A} (keep : nat → bool) (i : nat) (l : list A) : list A :=
  match l with
  | [] => []
  | x :: l' =>
    if keep i then x :: filter_index keep (S i) l' else filter_index keep (S i) l'
  end.

Definition removeImage (index : nat) (st : state) : state :=
  setFormData
    (with_images (filter_index (fun i => negb (i =? index)%nat) 0 (images (form st)))
                 (form st))
    st.

(** What the user can do to the draft: the change handlers of the
    inputs and the two image handlers. *)
Inductive event : Type :=
  | ChangeTitle (v : string)
  | ChangeCategory (v : string)
  | ChangeCondition (v : string)
  | ChangePrice (v : string)
  | ChangeStockCount (v : string)
  | ChangeDescription (v : string)
  | ChangeImageInput (v : string)
  | AddImage
  | RemoveImage (index : nat).

Definition handle (e : event) (st : state) : state :=
  let fd := form st in
  match e with
  | ChangeTitle v =>
    setFormData (FormData v (description fd) (price fd) (category fd)
                          (stock_count fd) (condition fd) (images fd)) st
  | ChangeCategory v =>
    setFormData (FormData (title fd) (description fd) (price fd) v
                          (stock_count fd) (condition fd) (images fd)) st
  | ChangeCondition v =>
    setFormData (FormData (title fd) (description fd) (price fd) (category fd)
                          (stock_count fd) v (images fd)) st
  | ChangePrice v =>
    setFormData (FormData (title fd) (description fd) v (category fd)
                          (stock_count fd) (condition fd) (images fd)) st
  | ChangeStockCount v =>
    setFormData (FormData (title fd) (description fd) (price fd) (category fd)
                          v (condition fd) (images fd)) st
  | ChangeDescription v =>
    setFormData (FormData (title fd) v (price fd) (category fd)
                          (stock_count fd) (condition fd) (images fd)) st
  | ChangeImageInput v => setImageInput v st
  | AddImage => addImage st
  | RemoveImage index => removeImage index st
  end.

Definition handle_all (es : list event) (st : state) : state :=
  foldl (fun st e => handle e st) st es.

(** The signed-in user, as the authentication context hands it over. *)
Record Profile : Type := { profile_id : string }.

Section Submit.
(** [parseFloat] and [parseInt] followed by the JSON encoding of the
    request: a number of the store, or [VNull] for [NaN].  JavaScript
    numbers are floating point; the two functions are kept abstract. *)
Variables parseFloat parseInt : string → value.

Definition productData (fd : formData) (now : Z) : row :=
  {[ "title" := VStr (title fd);
     "description" := VStr (description fd);
     "price" := parseFloat (price fd);
     "category" := VStr (category fd);
     "stock_count" := parseInt (stock_count fd);
     "condition" := VStr (condition fd);
     "images" := VArr (images fd);
     "updated_at" := VTime now ]}.

(** [if (productId)]: present and not the empty string. *)
Definition editing (productId : option string) : option string :=
  match productId with
  | Some pid => if JS.truthy pid then Some pid else None
  | None => None
  end.

(** [handleSubmit], with the reading [now] of the browser's clock.  The
    third component tells whether [onComplete] was scheduled. *)
Definition handleSubmit (productId : option string) (profile : option Profile)
    (now : Z) (srv : server) (st : state) : state * server * bool :=
  match profile with
  | None => (st, srv, false)
  | Some p =>
    let st := setMessage None (setSubmitting true st) in
    let productData := productData (form st) now in
    let '(resp, srv') :=
      match editing productId with
      | Some pid =>
        run_update srv (from_ "products" .> eq_ "id" (VStr pid)) productData
      | None =>
        run_insert srv (from_ "products")
          (<["status" := VStr "active"]>
             (<["seller_id" := VStr (profile_id p)]> productData))
      end in
    match error resp with
    | Some e =>
      (setSubmitting false
         (setMessage
            (Some (failure, JS.or_else (Store.message e) "Failed to save product")) st),
       srv', false)
    | None =>
      (setSubmitting false
         (setMessage
            (Some (success,
                   match editing productId with
                   | Some _ => "Product updated successfully!"
                   | None => "Product created successfully!"
                   end)) st),
       srv', true)
    end
  end.
End Submit.

End ProductFormPage.

(** ** Outcomes of a submission *)

Module Outcome.

(** The page states a submission ends in. *)
Definition saved (text : string) (st : ProductFormPage.state) : ProductFormPage.state :=
  ProductFormPage.State (ProductFormPage.form st) (ProductFormPage.imageInput st) false
    (Some (ProductFormPage.success, text)).

Definition not_saved (e : Store.PostgrestError) (st : ProductFormPage.state)
    : ProductFormPage.state :=
  ProductFormPage.State (ProductFormPage.form st) (ProductFormPage.imageInput st) false
    (Some (ProductFormPage.failure,
           JS.or_else (Store.message e) "Failed to save product")).

(** The row an update leaves in place of [r]. *)
Definition updated (pid : string) (payload r : row) : row :=
  if decide (col r "id" = VStr pid) then payload ∪ r else r.

(** The row a creation stores. *)
Definition created (parseFloat parseInt : string → value)
    (p : ProductFormPage.Profile) (fd : ProductFormPage.formData)
    (now : Z) (srv : Store.server) : row :=
  <["status" := VStr "active"]>
    (<["seller_id" := VStr (ProductFormPage.profile_id p)]>
       (ProductFormPage.productData parseFloat parseInt fd now))
  ∪ Store.column_defaults srv.

End Outcome.

(** ** The statements of the specification, in its own words *)

Module Spec.

Fixpoint lower_string (s : string) : string :=
  match s with
  | EmptyString => EmptyString
  | String c s' => String (Store.lower c) (lower_string s')
  end.

(** [needle] occurs in [text] as a substring, letter case aside. *)
Definition ci_substring (needle text : string) : Prop :=
  ∃ pre mid post,
    text = pre +:+ mid +:+ post ∧ lower_string mid = lower_string needle.

(** The column holds a text that contains [needle]. *)
Definition mentions (needle : string) (r : row) (column : string) : Prop :=
  ∃ text, col r column = VStr text ∧ ci_substring needle text.

(** The membership condition of the listing: active, of the selected
    category when one is selected (neither [null] nor empty), and matching
    the search text when there is one. *)
Definition listed (selectedCategory : option string) (searchQuery : string)
    (r : row) : Prop :=
  col r "status" = VStr "active"
  ∧ (∀ c, HomePage.chosen selectedCategory = Some c → col r "category_id" = VStr c)
  ∧ (searchQuery ≠ "" →
     mentions searchQuery r "title" ∨ mentions searchQuery r "description").

(** [a] may stand before [b] in a listing by creation time, newest
    first. *)
Definition newest_first (a b : row) : Prop :=
  value_leb (col b "created_at") (col a "created_at").

(** Newest first, and among products created at the same instant the
    smaller identifier first. *)
Definition newest_first_then_id (a b : row) : Prop :=
  newest_first a b
  ∧ (newest_first b a → value_leb (col a "id") (col b "id")).

(** [a] may stand before [b] in the list of categories. *)
Definition by_display_rank (a b : row) : Prop :=
  value_leb (col a "display_order") (col b "display_order").

(** Text without a character that the filter syntax or the pattern
    language reads as anything but itself: letters, digits and spaces. *)
Definition plain_char (c : ascii) : bool :=
  let n := N_of_ascii c in
  ((48 <=? n) && (n <=? 57) || (65 <=? n) && (n <=? 90)
   || (97 <=? n) && (n <=? 122) || (n =? 32))%N.

Fixpoint plain (s : string) : bool :=
  match s with
  | EmptyString => true
  | String c s' => plain_char c && plain s'
  end.

(** Empty, or white space only. *)
Fixpoint blank (s : string) : bool :=
  match s with
  | EmptyString => true
  | String c s' => JS.is_white_space c && blank s'
  end.

(** The columns a submitted draft carries. *)
Definition submitted : list string :=
  ["title"; "description"; "price"; "category"; "stock_count"; "condition";
   "images"; "updated_at"].

End Spec.

(** Filter [f] is readable and true of [r]. *)
Definition holds (f : constraint) (r : row) : Prop :=
  ∃ test, Store.compile f = Some test ∧ test r = true.

(** The membership condition of a request, as the store reads it. *)
Definition satisfies (q : query) (r : row) : bool :=
  match Store.where_ (q_filters q) with
  | Some test => test r
  | None => false
  end.

(** ** Sample stores *)

Module Examples.
Import Store.

Definition product (id seller title category : string) (created : Z) : row :=
  {[ "id" := VStr id; "seller_id" := VStr seller; "title" := VStr title;
     "description" := VStr ""; "category_id" := VStr category;
     "status" := VStr "active"; "created_at" := VTime created ]}.

Definition category (id : string) (parent : value) (rank : Z) : row :=
  {[ "id" := VStr id; "name" := VStr id; "parent_id" := parent;
     "display_order" := VNum (Qc_of_Z rank) ]}.

Definition store_of (products categories : list row) : server :=
  Server {[ "products" := products; "categories" := categories ]} None 1000 "fresh".

(** The same store, out of reach. *)
Definition unreachable (srv : server) : server :=
  Server (tables srv) (Some {| message := "Failed to fetch" |}) (clock srv)
         (next_id srv).

(** A draft, and the same draft with six images. *)
Definition draft : ProductFormPage.state :=
  ProductFormPage.State
    (ProductFormPage.FormData "Phone" "As new" "150" "electronics" "3" "new" [])
    "" false None.

Definition crowded_draft : ProductFormPage.state :=
  ProductFormPage.setFormData
    (ProductFormPage.with_images ["a.jpg"; "b.jpg"; "c.jpg"; "d.jpg"; "e.jpg"; "f.jpg"]
                                 (ProductFormPage.form draft))
    draft.

(** The four products of the specification's listing scenario. *)
Definition market_products : list row :=
  [product "p1" "S1" "Phone case" "electronics" 10;
   product "p2" "S1" "Phone" "electronics" 20;
   product "p3" "S2" "Laptop" "electronics" 30;
   product "p4" "S2" "Phone" "fashion" 40].

Definition market : server :=
  store_of market_products
    [category "fashion" VNull 2; category "shoes" (VStr "fashion") 1;
     category "electronics" VNull 1].

(** Two products created at the same instant, stored with the larger
    identifier first. *)
Definition tied_store : server :=
  store_of [product "b" "S1" "Kettle" "home" 5; product "a" "S1" "Kettle" "home" 5] [].

(** A stand-in for [parseFloat] and [parseInt] in the examples: it reads a
    run of decimal digits, and anything else as [NaN]. *)
Fixpoint digits (acc : Z) (s : string) : option Z :=
  match s with
  | EmptyString => Some acc
  | String c s' =>
    match Ascii.is_nat c with
    | Some d => digits (10 * acc + Z.of_nat d) s'
    | None => None
    end
  end.

Definition parse_digits (s : string) : value :=
  match s with
  | EmptyString => VNull
  | String _ _ =>
    match digits 0 s with
    | Some z => VNum (Qc_of_Z z)
    | None => VNull
    end
  end.

(** Fifty-one active products, the oldest first; the oldest is the only
    soap. *)
Definition soap (n : nat) : row :=
  product (pretty n) "S1" (if n is 0%nat then "Soap" else "Salt") "beauty" (Z.of_nat n).

Definition crowded_store : server := store_of (soap <$> seq 0 51) [].

End Examples.

(** ** HomePage: what the user does and sees *)

Module HomeView.
Import Store HomePage.

(** [category.id], as the click handler of a category button passes it on.
    Identifiers are texts; [null] stays [null]. *)
Definition category_id (c : row) : option string :=
  match col c "id" with
  | VStr s => Some s
  | _ => None
  end.

(** The clicks on the category buttons ([All], or the button of the
    category at a position of the list) and the typing into the search
    box of the header. *)
Inductive event : Type :=
  | ClickAll
  | ClickCategory (position : nat)
  | TypeSearch (text : string).

(** A state setter that is given the value the state holds already
    triggers nothing; a change re-runs the effect that depends on it. *)
Definition handle (e : event) (srv : server) (st : state) : state :=
  match e with
  | ClickAll =>
    if decide (selectedCategory st = None) then st else pick_category None srv st
  | ClickCategory position =>
    match categories st !! position with
    | Some c =>
      if decide (selectedCategory st = category_id c) then st
      else pick_category (category_id c) srv st
    | None => st
    end
  | TypeSearch text =>
    if decide (searchQuery st = text) then st else search text srv st
  end.

(** The page after mounting against [srv] and a run of events, each
    against the store as it is by then. *)
Definition run (srv : server) (es : list (event * server)) : state :=
  foldl (fun st e => handle e.1 e.2 st) (mount srv) es.

Definition quote : string := String (ascii_of_nat 34) EmptyString.

(** The heading above the products; [None] stands for [undefined], which
    renders as nothing. *)
Definition heading (st : state) : option value :=
  match chosen (selectedCategory st) with
  | Some selected =>
    (fun c => col c "name")
      <$> List.find (fun c => bool_decide (col c "id" = VStr selected)) (categories st)
  | None =>
    if JS.truthy (searchQuery st)
    then Some (VStr ("Search results for " +:+ quote +:+ searchQuery st +:+ quote))
    else Some (VStr "Nearby Products")
  end.

End HomeView.

(** What every page state met in a run has. *)
Definition page_ok (st : HomePage.state) : Prop :=
  ((length (HomePage.products st) ≤ 50)%nat
   ∧ StronglySorted Spec.newest_first (HomePage.products st)
   ∧ Forall (fun r => col r "status" = VStr "active") (HomePage.products st))
  ∧ (∀ selected,
       HomePage.selectedCategory st = Some selected →
       ∃ c, c ∈ HomePage.categories st ∧ col c "id" = VStr selected).

(** ** Printing numbers, for the examples *)

Module Samples.
(** A stand-in for [toString] on numbers: it prints the numerator. *)
Definition show_number (q : Qc) : string := pretty (Qnum (this q)).




End Samples.

(** ** ProductFormPage: loading the product to edit *)

Module ProductEdit.
Import Store ProductFormPage.

Definition multiple_rows : PostgrestError :=
  {| Store.message := "JSON object requested, multiple (or no) rows returned" |}.

(** [maybeSingle]: the one row of the answer, nothing when the answer is
    empty, an error when it holds more than one row. *)
Definition run_maybe_single (srv : server) (q : query)
    : option row * option PostgrestError :=
  let resp := run_select srv q in
  match data resp with
  | None => (None, error resp)
  | Some [] => (None, None)
  | Some [r] => (Some r, None)
  | Some (_ :: _ :: _) => (None, Some multiple_rows)
  end.

(** The page state with the [loading] flag, which [useState] starts at
    [!!productId]. *)
Record page : Type := Page {
  form_state : state;
  loading : bool
}.

Definition start (productId : option string) : page :=
  Page initial (if editing productId is Some _ then true else false).

Section Load.
(** [Number.prototype.toString], kept abstract like the parsing of
    numbers. *)
Variable toString : Qc → string.

(** The form filled from a stored product.  The columns are read at the
    types the generated [Row] type declares (texts, numbers, and for
    [images] a list of texts or [null]); a row of another shape is outside
    the embedding, [None]. *)
Definition fill (data : row) : option formData :=
  match col data "title", col data "description", col data "price",
        col data "category", col data "stock_count", col data "condition" with
  | VStr title, VStr description, VNum price, VStr category, VNum stock_count,
    VStr condition =>
    match col data "images" with
    | VArr images =>
      Some (FormData title description (toString price) category
                     (toString stock_count) condition images)
    | VNull =>
      Some (FormData title description (toString price) category
                     (toString stock_count) condition [])
    | _ => None
    end
  | _, _, _, _, _, _ => None
  end.

(** The request of [loadProduct]. *)
Definition product_query (pid : string) : query :=
  from_ "products" .> select_ "*" .> eq_ "id" (VStr pid).

Definition loadProduct (productId : option string) (srv : server) (pg : page)
    : option page :=
  match editing productId with
  | None => Some pg
  | Some pid =>
    match (run_maybe_single srv (product_query pid)).1 with
    | Some data =>
      fd ← fill data; Some (Page (setFormData fd (form_state pg)) false)
    | None => Some (Page (form_state pg) false)
    end
  end.
End Load.

End ProductEdit.

(** ** Header

    The header keeps one piece of state, whether the account menu is
    open, and reports what the user does through the callbacks it was
    given, all of them optional, and through [signOut] of the
    authentication context. *)

Module Header.

(** Which of the optional callbacks the parent passed. *)
Record props : Type := Props {
  onSearch : bool;
  onMenuClick : bool;
  onProfileClick : bool;
  onDashboardClick : bool
}.

(** A call the header makes. *)
Inductive call : Type :=
  | CallSearch (query : string)
  | CallMenuClick
  | CallProfileClick
  | CallDashboardClick
  | CallSignOut.

Global Instance call_eq_dec : EqDecision call.
Proof. solve_decision. Defined.

(** What the user can do: type into a search box, click the menu button,
    the dashboard button, the avatar, or one of the two entries of the
    account menu. *)
Inductive event : Type :=
  | TypeSearch (text : string)
  | ClickMenu
  | ClickDashboard
  | ClickAvatar
  | ClickMyProfile
  | ClickLogout.

(** [profile?.role === 'seller'], for the role of the signed-in user if
    there is one. *)
Definition is_seller (role : option string) : bool :=
  bool_decide (role = Some "seller").

(** Whether the control of an event is rendered: the dashboard button for
    sellers only, the menu entries while the menu is open. *)
Definition rendered (role : option string) (showMenu : bool) (e : event) : bool :=
  match e with
  | ClickDashboard => is_seller role
  | ClickMyProfile | ClickLogout => showMenu
  | _ => true
  end.

(** [callback?.(...)]: the call, if the callback was passed. *)
Definition optional (passed : bool) (c : call) : list call :=
  if passed then [c] else [].

(** The handler of an event: the new state of the menu and the calls
    made, in order. *)
Definition handle (p : props) (e : event) (showMenu : bool) : bool * list call :=
  match e with
  | TypeSearch text => (showMenu, optional (onSearch p) (CallSearch text))
  | ClickMenu => (showMenu, optional (onMenuClick p) CallMenuClick)
  | ClickDashboard => (false, optional (onDashboardClick p) CallDashboardClick)
  | ClickAvatar => (negb showMenu, [])
  | ClickMyProfile => (false, optional (onProfileClick p) CallProfileClick)
  | ClickLogout => (false, [CallSignOut])
  end.

(** A run of events from the closed menu; an event whose control is not
    rendered cannot happen and is skipped. *)
Fixpoint run (p : props) (role : option string) (es : list event) (showMenu : bool)
    : bool * list call :=
  match es with
  | [] => (showMenu, [])
  | e :: es' =>
    if rendered role showMenu e then
      let '(showMenu', calls) := handle p e showMenu in
      let '(final, calls') := run p role es' showMenu' in
      (final, calls ++ calls')
    else run p role es' showMenu
  end.

End Header.

(** * Properties *)

(** ** Sorting *)

Section Sorting.
Context {A : Type} (leb : A → A → bool).

Lemma insert_sorted_perm x l : insert_sorted leb x l ≡ₚ x :: l.
Proof.
  induction l as [|y l IH]; simpl; [done|].
  destruct (leb x y); [done|].
  rewrite IH. apply Permutation_swap.
Qed.

Lemma stable_sort_perm l : stable_sort leb l ≡ₚ l.
Proof.
  induction l as [|x l IH]; simpl; [done|].
  fold (stable_sort leb l). by rewrite insert_sorted_perm, IH.
Qed.

Lemma stable_sort_length l : length (stable_sort leb l) = length l.
Proof. by rewrite stable_sort_perm. Qed.

Lemma stable_sort_elem_of x l : x ∈ stable_sort leb l ↔ x ∈ l.
Proof. by rewrite stable_sort_perm. Qed.

Hypothesis leb_total : ∀ a b, leb a b = true ∨ leb b a = true.
Hypothesis leb_trans : ∀ a b c, leb a b = true → leb b c = true → leb a c = true.

Lemma insert_sorted_strongly x l :
  StronglySorted (fun a b => leb a b = true) l →
  StronglySorted (fun a b => leb a b = true) (insert_sorted leb x l).
Proof.
  induction 1 as [|y l Hl IH Hy]; simpl.
  - repeat constructor.
  - destruct (leb x y) eqn:Hxy.
    + constructor; [by constructor|].
      constructor; [done|].
      eapply Forall_impl; [exact Hy|]. intros z Hz. by eapply leb_trans.
    + constructor; [done|].
      rewrite insert_sorted_perm. constructor; [|done].
      destruct (leb_total x y) as [H|H]; [congruence|done].
Qed.

Lemma stable_sort_strongly l :
  StronglySorted (fun a b => leb a b = true) (stable_sort leb l).
Proof.
  induction l as [|x l IH]; simpl; [constructor|].
  by apply insert_sorted_strongly.
Qed.
End Sorting.

(** ** The order of values *)

Lemma string_leb_trans (a b c : string) :
  String.leb a b = true → String.leb b c = true → String.leb a c = true.
Proof.
  intros Hab Hbc.
  assert (String.le a c) as Hac.
  { transitivity b; unfold String.le; by apply Is_true_true. }
  by apply Is_true_true.
Qed.

Lemma value_leb_total (a b : value) : value_leb a b = true ∨ value_leb b a = true.
Proof.
  destruct a, b; simpl; auto using String.leb_total.
  - destruct (total Qcle q q0); [left|right]; by apply bool_decide_eq_true.
  - lia.
Qed.

Lemma value_leb_trans (a b c : value) :
  value_leb a b = true → value_leb b c = true → value_leb a c = true.
Proof.
  destruct a, b, c; simpl; try done; try lia.
  - apply string_leb_trans.
  - rewrite !bool_decide_eq_true. apply Qcle_trans.
Qed.

Lemma clause_leb_total cl (a b : row) :
  Store.clause_leb cl a b = true ∨ Store.clause_leb cl b a = true.
Proof. unfold Store.clause_leb. destruct cl.2; apply value_leb_total. Qed.

Lemma clause_leb_trans cl (a b c : row) :
  Store.clause_leb cl a b = true → Store.clause_leb cl b c = true →
  Store.clause_leb cl a c = true.
Proof.
  unfold Store.clause_leb. destruct cl.2; eauto using value_leb_trans.
Qed.

(** ** Reading a request *)

Lemma where_holds fs test r :
  Store.where_ fs = Some test → test r = true ↔ Forall (fun f => holds f r) fs.
Proof.
  unfold Store.where_. intros H.
  destruct (mapM Store.compile fs) as [tests|] eqn:Hm; simplify_eq/=.
  apply mapM_Some in Hm.
  rewrite forallb_forall.
  induction Hm as [|f t fs tests Hf Hm IH].
  - split; [by constructor | by intros _ ? []].
  - rewrite Forall_cons, <-IH. split.
    + intros Hall. split.
      * exists t. split; [done|]. apply Hall. by left.
      * intros x Hx. apply Hall. by right.
    + intros [(t' & Ht' & Htr) Hall] x [<-|Hx]; [congruence|by apply Hall].
Qed.

Lemma satisfies_holds q r :
  satisfies q r = true ↔ Forall (fun f => holds f r) (q_filters q).
Proof.
  unfold satisfies.
  destruct (Store.where_ (q_filters q)) as [test|] eqn:Hw.
  - by apply where_holds.
  - split; [done|]. intros Hall. exfalso.
    unfold Store.where_ in Hw.
    destruct (mapM Store.compile (q_filters q)) eqn:Hm; [done|].
    apply eq_None_not_Some in Hm. apply Hm, mapM_is_Some.
    eapply Forall_impl; [exact Hall|]. intros f (t & Ht & _). by exists t.
Qed.

Lemma run_select_data srv q rows :
  Store.data (Store.run_select srv q) = Some rows →
  ∃ stored test,
    Store.refusal srv = None
    ∧ Store.tables srv !! q_from q = Some stored
    ∧ Store.where_ (q_filters q) = Some test
    ∧ rows = Store.truncate (q_limit q)
               (Store.order_by (q_order q) (List.filter test stored)).
Proof.
  unfold Store.run_select. intros H.
  destruct (Store.refusal srv); [done|].
  destruct (Store.tables srv !! q_from q) as [stored|]; [|done].
  destruct (Store.where_ (q_filters q)) as [test|]; [|done].
  simplify_eq/=. by exists stored, test.
Qed.

Lemma run_select_refused srv q e :
  Store.refusal srv = Some e → Store.run_select srv q = Store.failed e.
Proof. unfold Store.run_select. by intros ->. Qed.

(** No data, that is an error. *)
Lemma run_select_failed srv q :
  Store.data (Store.run_select srv q) = None ↔
  Store.error (Store.run_select srv q) ≠ None.
Proof.
  unfold Store.run_select.
  destruct (Store.refusal srv); [done|].
  destruct (Store.tables srv !! q_from q); [|done].
  by destruct (Store.where_ (q_filters q)).
Qed.

Lemma StronglySorted_weaken {A} (R R' : A → A → Prop) l :
  (∀ a b, R a b → R' a b) → StronglySorted R l → StronglySorted R' l.
Proof.
  intros HR. induction 1 as [|x l Hl IH Hx]; constructor; [done|].
  eapply Forall_impl; [exact Hx|]. auto.
Qed.

Lemma StronglySorted_take {A} (R : A → A → Prop) n l :
  StronglySorted R l → StronglySorted R (take n l).
Proof.
  intros H. rewrite <-(take_drop n l) in H. by apply StronglySorted_app_1_l in H.
Qed.

(** ** The two requests of HomePage *)

Lemma products_query_parts selectedCategory searchQuery :
  let q := HomePage.products_query selectedCategory searchQuery in
  q_from q = "products"
  ∧ q_order q = [("created_at", false)]
  ∧ q_limit q = Some 50%nat
  ∧ q_filters q =
      FEq "status" (VStr "active")
      :: match HomePage.chosen selectedCategory with
         | Some c => [FEq "category_id" (VStr c)]
         | None => []
         end
      ++ (if JS.truthy searchQuery
          then [FOr ("title.ilike.%" +:+ searchQuery
                       +:+ "%,description.ilike.%" +:+ searchQuery +:+ "%")]
          else []).
Proof.
  unfold HomePage.products_query.
  by destruct (HomePage.chosen selectedCategory), (JS.truthy searchQuery).
Qed.

Lemma loadProducts_answered srv st rows :
  Store.data (Store.run_select srv
    (HomePage.products_query (HomePage.selectedCategory st) (HomePage.searchQuery st)))
  = Some rows →
  HomePage.loadProducts srv st
  = HomePage.State (HomePage.categories st) rows false
      (HomePage.selectedCategory st) (HomePage.searchQuery st).
Proof. unfold HomePage.loadProducts. simpl. by intros ->. Qed.

Lemma loadProducts_unanswered srv st :
  Store.data (Store.run_select srv
    (HomePage.products_query (HomePage.selectedCategory st) (HomePage.searchQuery st)))
  = None →
  HomePage.loadProducts srv st
  = HomePage.State (HomePage.categories st) (HomePage.products st) false
      (HomePage.selectedCategory st) (HomePage.searchQuery st).
Proof. unfold HomePage.loadProducts. simpl. by intros ->. Qed.

(** What the store answers the listing request with. *)
Lemma products_query_answer srv selectedCategory searchQuery rows :
  Store.data (Store.run_select srv (HomePage.products_query selectedCategory searchQuery))
  = Some rows →
  ∃ stored,
    Store.refusal srv = None
    ∧ Store.tables srv !! "products" = Some stored
    ∧ rows = take 50
        (stable_sort (Store.clause_leb ("created_at", false))
           (List.filter (satisfies (HomePage.products_query selectedCategory searchQuery))
                        stored)).
Proof.
  intros (stored & test & Href & Htab & Hw & ->)%run_select_data.
  destruct (products_query_parts selectedCategory searchQuery) as (Hf & Ho & Hl & _).
  rewrite Hf in Htab. rewrite Ho, Hl. simpl.
  exists stored. split_and!; [done..|].
  do 3 f_equal. unfold satisfies. by rewrite Hw.
Qed.

(** ** Strings *)

Lemma app_cons c (a b : string) : String c a +:+ b = String c (a +:+ b).
Proof. reflexivity. Qed.

Lemma app_empty (b : string) : "" +:+ b = b.
Proof. reflexivity. Qed.

Lemma app_empty_r (a : string) : a +:+ "" = a.
Proof. induction a as [|c a IH]; [done|]. by rewrite app_cons, IH. Qed.

Lemma app_assoc (a b c : string) : (a +:+ b) +:+ c = a +:+ b +:+ c.
Proof. induction a as [|d a IH]; [done|]. by rewrite !app_cons, IH. Qed.

Lemma lower_string_app a b :
  Spec.lower_string (a +:+ b) = Spec.lower_string a +:+ Spec.lower_string b.
Proof. induction a as [|c a IH]; [done|]. rewrite ?app_cons. simpl. by rewrite IH. Qed.

Lemma occurs_app c a b : Store.occurs c (a +:+ b) = Store.occurs c a || Store.occurs c b.
Proof.
  induction a as [|d a IH]; [done|].
  rewrite ?app_cons. simpl. by rewrite IH, orb_assoc.
Qed.

Lemma split_on_app sep a b :
  Store.occurs sep a = false →
  Store.split_on sep (a +:+ String sep b) = a :: Store.split_on sep b.
Proof.
  induction a as [|c a IH]; simpl; intros Ha.
  - by rewrite bool_decide_eq_true_2.
  - apply orb_false_elim in Ha as [Hc Ha]. rewrite ?app_cons. simpl.
    by rewrite Hc, IH.
Qed.

Lemma split_on_absent sep a :
  Store.occurs sep a = false → Store.split_on sep a = [a].
Proof.
  induction a as [|c a IH]; simpl; intros Ha; [done|].
  apply orb_false_elim in Ha as [Hc Ha]. by rewrite Hc, IH.
Qed.

Lemma plain_occurs c s :
  Spec.plain_char c = false → Spec.plain s = true → Store.occurs c s = false.
Proof.
  intros Hc. induction s as [|d s IH]; simpl; [done|].
  intros [Hd Hs]%andb_prop. rewrite IH by done.
  case_bool_decide; [congruence|done].
Qed.

Lemma plain_literal c : Spec.plain_char c = true → Store.classify c = Store.Literal.
Proof.
  intros Hc. unfold Store.classify.
  repeat (case_bool_decide; [by subst|]). done.
Qed.

(** *** Patterns *)

Lemma like_any_run_unfold c p s :
  Store.classify c = Store.AnyRun →
  Store.like (String c p) s
  = Store.like p s || match s with
                      | EmptyString => false
                      | String _ s' => Store.like (String c p) s'
                      end.
Proof. intros Hc. simpl. rewrite Hc. by destruct s. Qed.

Lemma like_any_run c p s :
  Store.classify c = Store.AnyRun →
  Store.like (String c p) s = true ↔
  ∃ pre rest, s = pre +:+ rest ∧ Store.like p rest = true.
Proof.
  intros Hc. induction s as [|d s IH]; rewrite like_any_run_unfold by done.
  - rewrite orb_false_r. split.
    + intros H. by exists "", "".
    + intros ([|??] & rest & Heq & H); [by rewrite ?app_empty in Heq; subst|done].
  - rewrite orb_true_iff, IH. split.
    + intros [H|(pre & rest & -> & H)].
      * by exists "", (String d s).
      * by exists (String d pre), rest.
    + intros ([|e pre] & rest & Heq & H).
      * rewrite ?app_empty in Heq. subst. by left.
      * rewrite ?app_cons in Heq. simplify_eq. right. by exists pre, rest.
Qed.

Lemma eqb_ci_lower a b : Store.eqb_ci a b = true ↔ Store.lower a = Store.lower b.
Proof. unfold Store.eqb_ci. apply bool_decide_eq_true. Qed.

Lemma like_literal q p s :
  Spec.plain q = true →
  Store.like (q +:+ p) s = true ↔
  ∃ mid rest, s = mid +:+ rest
              ∧ Spec.lower_string mid = Spec.lower_string q
              ∧ Store.like p rest = true.
Proof.
  revert s. induction q as [|c q IH]; intros s Hq.
  - rewrite ?app_empty. split.
    + intros H. by exists "", s.
    + intros ([|??] & rest & Heq & Hl & H); [|done].
      rewrite ?app_empty in Heq. by subst.
  - simpl in Hq. apply andb_prop in Hq as [Hc Hq].
    rewrite ?app_cons. simpl. rewrite (plain_literal c Hc).
    destruct s as [|e s]; simpl.
    + split; [done|]. intros ([|??] & rest & Heq & Hl & H); done.
    + rewrite andb_true_iff, eqb_ci_lower, IH by done. split.
      * intros (Hce & mid & rest & -> & Hl & H).
        exists (String e mid), rest. simpl. by rewrite Hce, Hl.
      * intros ([|e' mid] & rest & Heq & Hl & H); [done|].
        rewrite ?app_cons in Heq. simpl in Hl. simplify_eq.
        split; [done|]. by exists mid, rest.
Qed.

Lemma like_everything s : Store.like "%" s = true.
Proof. apply like_any_run; [done|]. by exists s, ""; rewrite app_empty_r. Qed.

(** For plain text the pattern the page builds finds substrings, letter
    case aside. *)
Lemma like_contains q text :
  Spec.plain q = true →
  Store.like ("%" +:+ q +:+ "%") text = true ↔ Spec.ci_substring q text.
Proof.
  intros Hq. rewrite app_cons, app_empty, like_any_run by done.
  unfold Spec.ci_substring. split.
  - intros (pre & rest & -> & (mid & post & -> & Hl & _)%like_literal); [|done].
    by exists pre, mid, post.
  - intros (pre & mid & post & -> & Hl).
    exists pre, (mid +:+ post). split; [done|].
    apply like_literal; [done|]. exists mid, post. auto using like_everything.
Qed.

(** ** The search filter *)

Lemma search_filter_conds q :
  Spec.plain q = true →
  Store.parse_logic ("title.ilike.%" +:+ q +:+ "%,description.ilike.%" +:+ q +:+ "%")
  = Some [Store.Cond "title" "ilike" ("%" +:+ q +:+ "%");
          Store.Cond "description" "ilike" ("%" +:+ q +:+ "%")].
Proof.
  intros Hq.
  assert (Store.occurs "," q = false) as Hcomma by by apply plain_occurs.
  replace ("title.ilike.%" +:+ q +:+ "%,description.ilike.%" +:+ q +:+ "%")
    with (("title.ilike.%" +:+ q +:+ "%")
            +:+ String "," ("description.ilike.%" +:+ q +:+ "%"))
    by (by rewrite !app_assoc).
  unfold Store.parse_logic.
  rewrite split_on_app, split_on_absent
    by (rewrite !occurs_app, Hcomma; reflexivity).
  reflexivity.
Qed.

Lemma value_eqb_text a s : value_eqb a (VStr s) = true ↔ a = VStr s.
Proof.
  unfold value_eqb. destruct a; simpl; try (split; done).
  rewrite bool_decide_eq_true. done.
Qed.

Lemma holds_eq_text column s r :
  holds (FEq column (VStr s)) r ↔ col r column = VStr s.
Proof.
  unfold holds. simpl. rewrite <-value_eqb_text. split.
  - by intros (test & [= <-] & H).
  - intros H. by eexists.
Qed.

Lemma ilike_mentions q r column :
  Spec.plain q = true →
  match col r column with
  | VStr text => Store.like ("%" +:+ q +:+ "%") text
  | _ => false
  end = true ↔ Spec.mentions q r column.
Proof.
  intros Hq. unfold Spec.mentions. destruct (col r column) as [|text| | |].
  all: try (split; [done | by intros (? & ? & ?)]).
  rewrite like_contains by done. split.
  - intros H. by exists text.
  - by intros (? & [= <-] & H).
Qed.

Lemma holds_search_filter q r :
  Spec.plain q = true →
  holds (FOr ("title.ilike.%" +:+ q +:+ "%,description.ilike.%" +:+ q +:+ "%")) r
  ↔ Spec.mentions q r "title" ∨ Spec.mentions q r "description".
Proof.
  intros Hq. unfold holds. simpl. rewrite search_filter_conds by done. simpl.
  rewrite <-!(ilike_mentions q r) by done. split.
  - intros (test & [= <-] & H). simpl in H.
    rewrite orb_false_r in H. by apply orb_prop in H.
  - intros H. eexists. split; [done|]. simpl.
    rewrite orb_false_r. apply orb_true_iff. exact H.
Qed.

Lemma truthy_nonempty s : JS.truthy s = true ↔ s ≠ "".
Proof. by destruct s. Qed.

(** For plain search text, the condition the store reads off the request
    is the membership condition of the specification. *)
Lemma satisfies_listed selectedCategory searchQuery r :
  Spec.plain searchQuery = true →
  satisfies (HomePage.products_query selectedCategory searchQuery) r = true
  ↔ Spec.listed selectedCategory searchQuery r.
Proof.
  intros Hq. rewrite satisfies_holds.
  destruct (products_query_parts selectedCategory searchQuery) as (_ & _ & _ & ->).
  rewrite Forall_cons, Forall_app, holds_eq_text. unfold Spec.listed.
  assert (Forall (fun f => holds f r)
            match HomePage.chosen selectedCategory with
            | Some c => [FEq "category_id" (VStr c)]
            | None => []
            end
          ↔ ∀ c, HomePage.chosen selectedCategory = Some c → col r "category_id" = VStr c)
    as ->.
  { destruct (HomePage.chosen selectedCategory) as [c|].
    - rewrite Forall_singleton, holds_eq_text. split; [by intros H ? [= <-]|auto].
    - split; [done|constructor]. }
  assert (Forall (fun f => holds f r)
            (if JS.truthy searchQuery
             then [FOr ("title.ilike.%" +:+ searchQuery
                          +:+ "%,description.ilike.%" +:+ searchQuery +:+ "%")]
             else [])
          ↔ (searchQuery ≠ "" →
             Spec.mentions searchQuery r "title"
             ∨ Spec.mentions searchQuery r "description"))
    as ->; [|done].
  destruct (JS.truthy searchQuery) eqn:Ht.
  - rewrite Forall_singleton, holds_search_filter by done.
    apply truthy_nonempty in Ht. split; [auto|]. intros H. by apply H.
  - split; [|constructor]. intros _ Hne. apply truthy_nonempty in Hne. congruence.
Qed.

(** ** The product listing *)

(** C1, as amended.  Whenever the store answers the request of
    [loadProducts], the answer becomes the product list; it holds at most
    50 products, and they are in creation order, newest first.  (The
    request names no second sort key: see [products_query_order].) *)
Theorem loadProducts_bounded_newest_first srv st rows :
  Store.data (Store.run_select srv
    (HomePage.products_query (HomePage.selectedCategory st) (HomePage.searchQuery st)))
  = Some rows →
  HomePage.products (HomePage.loadProducts srv st) = rows
  ∧ (length rows ≤ 50)%nat
  ∧ StronglySorted Spec.newest_first rows.
Proof.
  intros H. rewrite (loadProducts_answered _ _ _ H). split; [done|].
  apply products_query_answer in H as (stored & _ & _ & ->).
  split; [rewrite length_take; lia|].
  apply StronglySorted_take.
  eapply StronglySorted_weaken;
    [|apply stable_sort_strongly; [apply clause_leb_total | apply clause_leb_trans]].
  intros a b Hab. unfold Spec.newest_first. by apply Is_true_true.
Qed.

Lemma loadProducts_bounded_newest_first_witness :
  let rows := HomePage.products (HomePage.loadProducts Examples.market HomePage.initial) in
  Store.data (Store.run_select Examples.market
    (HomePage.products_query (HomePage.selectedCategory HomePage.initial)
                             (HomePage.searchQuery HomePage.initial)))
  = Some rows
  ∧ HomePage.products (HomePage.loadProducts Examples.market HomePage.initial) = rows
  ∧ (length rows ≤ 50)%nat
  ∧ StronglySorted Spec.newest_first rows.
Proof.
  intros rows.
  assert (Store.data (Store.run_select Examples.market
            (HomePage.products_query (HomePage.selectedCategory HomePage.initial)
                                     (HomePage.searchQuery HomePage.initial)))
          = Some rows) as H by compute_done.
  split; [exact H|].
  exact (loadProducts_bounded_newest_first Examples.market HomePage.initial rows H).
Defined.

(** C1, as stated, fails: two products created at the same instant come
    back in the order the store holds them, here the larger identifier
    first. *)
Lemma loadProducts_ties_not_by_identifier :
  let rows := HomePage.products (HomePage.loadProducts Examples.tied_store HomePage.initial) in
  ((fun r => col r "id") <$> rows) = [VStr "b"; VStr "a"]
  ∧ ¬ Sorted Spec.newest_first_then_id rows.
Proof.
  split; [by vm_compute|].
  intros Hs.
  inversion Hs as [|? ? _ Hhd]; subst.
  inversion Hhd as [|? ? [_ Htie]]; subst.
  vm_compute in Htie. by specialize (Htie I).
Qed.

(** The request asks for one sort key and nothing else. *)
Lemma products_query_order selectedCategory searchQuery :
  q_order (HomePage.products_query selectedCategory searchQuery)
  = [("created_at", false)].
Proof. by destruct (products_query_parts selectedCategory searchQuery) as (_ & ? & _). Qed.

(** ** A store that does not answer *)

(** C8, as amended.  When the store answers the listing request with an
    error, of whatever kind, [loadProducts] returns all the same: it keeps
    the products it showed before and only clears the loading flag.
    Nothing of the error is kept or passed on: the component state has no
    place for it. *)
Theorem loadProducts_failure_keeps_products srv st :
  Store.error (Store.run_select srv
    (HomePage.products_query (HomePage.selectedCategory st) (HomePage.searchQuery st)))
  ≠ None →
  HomePage.loadProducts srv st = HomePage.setLoading false st
  ∧ HomePage.products (HomePage.loadProducts srv st) = HomePage.products st.
Proof.
  intros H%run_select_failed.
  by rewrite (loadProducts_unanswered _ _ H).
Qed.

Lemma loadProducts_failure_keeps_products_witness :
  let srv := Examples.unreachable Examples.market in
  let st := HomePage.mount Examples.market in
  Store.error (Store.run_select srv
    (HomePage.products_query (HomePage.selectedCategory st) (HomePage.searchQuery st)))
  ≠ None
  ∧ HomePage.loadProducts srv st = HomePage.setLoading false st
  ∧ HomePage.products (HomePage.loadProducts srv st) = HomePage.products st.
Proof.
  intros srv st.
  assert (Store.error (Store.run_select srv
            (HomePage.products_query (HomePage.selectedCategory st)
                                     (HomePage.searchQuery st))) ≠ None) as H
    by (vm_compute; discriminate).
  split; [exact H|].
  exact (loadProducts_failure_keeps_products srv st H).
Defined.

(** C8, as stated, fails: the page has loaded four products, the store
    then goes out of reach and the user types a search text; the four
    products stay on the page. *)
Lemma loadProducts_failure_not_empty :
  let st := HomePage.mount Examples.market in
  let st' := HomePage.search "phone" (Examples.unreachable Examples.market) st in
  Store.error (Store.run_select (Examples.unreachable Examples.market)
    (HomePage.products_query (HomePage.selectedCategory st) "phone"))
  = Some {| Store.message := "Failed to fetch" |}
  ∧ length (HomePage.products st') = 4%nat
  ∧ HomePage.products st' ≠ [].
Proof.
  intros st st'.
  assert (length (HomePage.products st') = 4%nat) as Hlen by compute_done.
  split; [compute_done|]. split; [done|].
  intros Hnil. by rewrite Hnil in Hlen.
Qed.

(** ** The categories *)

(** C9.  When the store answers, the category list becomes the stored
    categories without a parent, each as often as it is stored, in
    ascending display rank.  When it does not answer, [loadCategories]
    returns all the same and the list stays as it was: empty, since the
    only call is the one of the mount effect, made on a state whose list is
    still empty. *)
Theorem loadCategories_top_level_by_rank srv st :
  (∀ stored,
     Store.refusal srv = None →
     Store.tables srv !! "categories" = Some stored →
     HomePage.categories (HomePage.loadCategories srv st)
       ≡ₚ filter (fun r => col r "parent_id" = VNull) stored
     ∧ StronglySorted Spec.by_display_rank
         (HomePage.categories (HomePage.loadCategories srv st)))
  ∧ (Store.data (Store.run_select srv HomePage.categories_query) = None →
     HomePage.categories st = [] →
     HomePage.categories (HomePage.loadCategories srv st) = []).
Proof.
  split.
  - intros stored Href Htab.
    assert (Store.data (Store.run_select srv HomePage.categories_query)
            = Some (stable_sort (Store.clause_leb ("display_order", true))
                      (List.filter (fun r => is_null (col r "parent_id")) stored)))
      as Hdata.
    { unfold Store.run_select. rewrite Href.
      change (q_from HomePage.categories_query) with "categories". rewrite Htab.
      simpl. do 2 f_equal. apply List.filter_ext. intros r. apply andb_true_r. }
    unfold HomePage.loadCategories. rewrite Hdata. simpl. split.
    + rewrite stable_sort_perm. clear.
      induction stored as [|r stored IH]; [done|]. simpl.
      rewrite filter_cons. unfold is_null at 1.
      case_decide as Hr; [rewrite Hr; by f_equiv|].
      destruct (col r "parent_id"); done.
    + eapply StronglySorted_weaken;
        [|apply stable_sort_strongly; [apply clause_leb_total | apply clause_leb_trans]].
      intros a b Hab. unfold Spec.by_display_rank. by apply Is_true_true.
  - intros Hdata Hnil. unfold HomePage.loadCategories. by rewrite Hdata.
Qed.

Lemma loadCategories_top_level_by_rank_witness :
  let srv := Examples.market in
  let down := Examples.unreachable Examples.market in
  let st := HomePage.initial in
  (Store.refusal srv = None
   ∧ (∃ stored, Store.tables srv !! "categories" = Some stored
      ∧ HomePage.categories (HomePage.loadCategories srv st)
          ≡ₚ filter (fun r => col r "parent_id" = VNull) stored
      ∧ StronglySorted Spec.by_display_rank
          (HomePage.categories (HomePage.loadCategories srv st)))
   ∧ (fun r => col r "id") <$> HomePage.categories (HomePage.loadCategories srv st)
     = [VStr "electronics"; VStr "fashion"])
  ∧ (Store.data (Store.run_select down HomePage.categories_query) = None
     ∧ HomePage.categories st = []
     ∧ HomePage.categories (HomePage.loadCategories down st) = []).
Proof.
  intros srv down st. split.
  - split; [reflexivity|]. split; [|compute_done].
    eexists. split; [reflexivity|].
    exact (proj1 (loadCategories_top_level_by_rank srv st) _ eq_refl eq_refl).
  - assert (Store.data (Store.run_select down HomePage.categories_query) = None) as H
      by compute_done.
    split; [exact H|]. split; [reflexivity|].
    exact (proj2 (loadCategories_top_level_by_rank down st) H eq_refl).
Defined.

(** ** Adding a filter *)

(** C3.  A product that satisfies the membership condition of the request
    with a category also satisfies the one of the request without it, the
    search text being the same; and one that satisfies the condition of a
    request with a search text also satisfies the one of the request
    without it, the category being the same. *)
Theorem adding_a_filter_narrows selectedCategory searchQuery c text r :
  (satisfies (HomePage.products_query (Some c) searchQuery) r = true →
   satisfies (HomePage.products_query None searchQuery) r = true)
  ∧ (satisfies (HomePage.products_query selectedCategory text) r = true →
     satisfies (HomePage.products_query selectedCategory "") r = true).
Proof.
  rewrite !satisfies_holds.
  destruct (products_query_parts (Some c) searchQuery) as (_ & _ & _ & ->).
  destruct (products_query_parts None searchQuery) as (_ & _ & _ & ->).
  destruct (products_query_parts selectedCategory text) as (_ & _ & _ & ->).
  destruct (products_query_parts selectedCategory "") as (_ & _ & _ & ->).
  split.
  - rewrite !Forall_cons, !Forall_app. intros (Hstatus & _ & Hsearch).
    split_and!; [exact Hstatus | constructor | exact Hsearch].
  - rewrite !Forall_cons, !Forall_app. simpl. intros (Hstatus & Hcat & _).
    split_and!; [exact Hstatus | exact Hcat | constructor].
Qed.

Lemma adding_a_filter_narrows_witness :
  let r := Examples.product "p2" "S1" "Phone" "electronics" 20 in
  (satisfies (HomePage.products_query (Some "electronics") "phone") r = true
   ∧ satisfies (HomePage.products_query None "phone") r = true)
  ∧ (satisfies (HomePage.products_query (Some "electronics") "phone") r = true
     ∧ satisfies (HomePage.products_query (Some "electronics") "") r = true).
Proof.
  intros r.
  assert (satisfies (HomePage.products_query (Some "electronics") "phone") r = true)
    as H by compute_done.
  split; (split; [exact H|]).
  - exact (proj1 (adding_a_filter_narrows None "phone" "electronics" "" r) H).
  - exact (proj2 (adding_a_filter_narrows (Some "electronics") "" "" "phone" r) H).
Defined.

(** The truncated result does not narrow with the condition: a search
    text can bring in a product that fifty newer ones kept out. *)
Example narrower_filter_other_products :
  let old := Examples.soap 0 in
  let all := HomePage.products (HomePage.loadProducts Examples.crowded_store HomePage.initial) in
  let found := HomePage.products (HomePage.search "soap" Examples.crowded_store HomePage.initial) in
  length all = 50%nat ∧ (old ∉ all) ∧ found = [old].
Proof. split_and!; compute_done. Qed.

(** ** Which products are listed *)

Lemma products_query_readable selectedCategory searchQuery :
  Spec.plain searchQuery = true →
  is_Some (Store.where_ (q_filters (HomePage.products_query selectedCategory searchQuery))).
Proof.
  intros Hq.
  destruct (products_query_parts selectedCategory searchQuery) as (_ & _ & _ & ->).
  unfold Store.where_.
  assert (is_Some (mapM Store.compile
            (FEq "status" (VStr "active")
             :: match HomePage.chosen selectedCategory with
                | Some c => [FEq "category_id" (VStr c)]
                | None => []
                end
             ++ (if JS.truthy searchQuery
                 then [FOr ("title.ilike.%" +:+ searchQuery
                              +:+ "%,description.ilike.%" +:+ searchQuery +:+ "%")]
                 else [])))) as [tests ->]; [|by eexists].
  apply mapM_is_Some. rewrite Forall_cons, Forall_app. split_and!.
  - by eexists.
  - destruct (HomePage.chosen selectedCategory); repeat constructor; by eexists.
  - destruct (JS.truthy searchQuery); repeat constructor.
    simpl. rewrite search_filter_conds by done. by eexists.
Qed.

(** What [loadProducts] shows when the store answers. *)
Lemma loadProducts_shown srv st stored :
  Spec.plain (HomePage.searchQuery st) = true →
  Store.refusal srv = None →
  Store.tables srv !! "products" = Some stored →
  HomePage.products (HomePage.loadProducts srv st)
  = take 50
      (stable_sort (Store.clause_leb ("created_at", false))
         (List.filter
            (satisfies (HomePage.products_query (HomePage.selectedCategory st)
                                                (HomePage.searchQuery st)))
            stored)).
Proof.
  intros Hq Href Htab.
  destruct (products_query_readable (HomePage.selectedCategory st) _ Hq) as [test Hw].
  assert (Store.data (Store.run_select srv
            (HomePage.products_query (HomePage.selectedCategory st)
                                     (HomePage.searchQuery st)))
          = Some (take 50
                    (stable_sort (Store.clause_leb ("created_at", false))
                       (List.filter
                          (satisfies (HomePage.products_query
                                        (HomePage.selectedCategory st)
                                        (HomePage.searchQuery st)))
                          stored)))) as Hdata.
  { unfold Store.run_select, satisfies. rewrite Href, Hw.
    destruct (products_query_parts (HomePage.selectedCategory st) (HomePage.searchQuery st))
      as (-> & -> & -> & _).
    by rewrite Htab. }
  by rewrite (loadProducts_answered _ _ _ Hdata).
Qed.

(** C2, as amended.  For a search text of letters, digits and spaces, and
    a store that answers: every product shown is a stored product that
    satisfies the membership condition; and a stored product that satisfies
    it is shown, unless fifty products are shown already, none of them
    older than it. *)
Theorem loadProducts_lists_matching srv st stored :
  Spec.plain (HomePage.searchQuery st) = true →
  Store.refusal srv = None →
  Store.tables srv !! "products" = Some stored →
  let shown := HomePage.products (HomePage.loadProducts srv st) in
  let listed := Spec.listed (HomePage.selectedCategory st) (HomePage.searchQuery st) in
  (∀ r, r ∈ shown → r ∈ stored ∧ listed r)
  ∧ (∀ r, r ∈ stored → listed r →
       r ∈ shown
       ∨ (length shown = 50%nat ∧ ∀ r', r' ∈ shown → Spec.newest_first r' r)).
Proof.
  intros Hq Href Htab shown listed. subst shown listed.
  rewrite (loadProducts_shown _ _ _ Hq Href Htab).
  set (q := HomePage.products_query _ _).
  set (sorted := stable_sort _ _).
  assert (∀ r, r ∈ sorted ↔ r ∈ stored ∧ satisfies q r = true) as Hin.
  { intros r. unfold sorted.
    by rewrite stable_sort_elem_of, !list_elem_of_In, filter_In. }
  assert (StronglySorted Spec.newest_first sorted) as Hsorted.
  { eapply StronglySorted_weaken;
      [|apply stable_sort_strongly; [apply clause_leb_total | apply clause_leb_trans]].
    intros a b Hab. unfold Spec.newest_first. by apply Is_true_true. }
  split.
  - intros r Hr. unfold q in Hin.
    rewrite <-(satisfies_listed _ _ _ Hq). apply Hin.
    rewrite <-(take_drop 50 sorted). apply elem_of_app. by left.
  - intros r Hr Hl. apply (satisfies_listed _ _ _ Hq) in Hl.
    assert (r ∈ sorted) as Hrs by by apply Hin.
    rewrite <-(take_drop 50 sorted) in Hrs, Hsorted.
    apply elem_of_app in Hrs as [Hrs|Hrs]; [by left|right]. split.
    + rewrite length_take. apply Nat.min_l.
      destruct (decide (50 ≤ length sorted)%nat) as [|Hshort]; [done|].
      rewrite drop_ge in Hrs by lia. by apply elem_of_nil in Hrs.
    + intros r' Hr'. by eapply StronglySorted_app_1_elem_of.
Qed.

Lemma loadProducts_lists_matching_witness :
  let srv := Examples.market in
  let st := HomePage.State [] [] true (Some "electronics") "phone" in
  let stored := Examples.market_products in
  let shown := HomePage.products (HomePage.loadProducts srv st) in
  let listed := Spec.listed (HomePage.selectedCategory st) (HomePage.searchQuery st) in
  Spec.plain (HomePage.searchQuery st) = true
  ∧ Store.refusal srv = None
  ∧ Store.tables srv !! "products" = Some stored
  ∧ (fun r => col r "id") <$> shown = [VStr "p2"; VStr "p1"]
  ∧ (∀ r, r ∈ shown → r ∈ stored ∧ listed r)
  ∧ (∀ r, r ∈ stored → listed r →
       r ∈ shown
       ∨ (length shown = 50%nat ∧ ∀ r', r' ∈ shown → Spec.newest_first r' r)).
Proof.
  intros srv st stored shown listed.
  assert (Store.tables srv !! "products" = Some stored) as Htab by compute_done.
  split_and!; [reflexivity | reflexivity | exact Htab | compute_done | ..];
    apply (loadProducts_lists_matching srv st stored eq_refl eq_refl Htab).
Defined.

(** C2, as stated, fails: with fifty-one active products and no filter the
    oldest satisfies the membership condition and is not shown. *)
Lemma loadProducts_omits_older_match :
  let r := Examples.soap 0 in
  let shown := HomePage.products
                 (HomePage.loadProducts Examples.crowded_store HomePage.initial) in
  Store.tables Examples.crowded_store !! "products" = Some (Examples.soap <$> seq 0 51)
  ∧ r ∈ Examples.soap <$> seq 0 51
  ∧ Spec.listed None "" r
  ∧ r ∉ shown.
Proof.
  intros r shown. split_and!; [compute_done | compute_done | | compute_done].
  split_and!; [compute_done | done | done].
Qed.

(** Why the search text is taken plain.  The page splices it into the
    pattern and into the logic string as it is: an underscore then stands
    for any character, and a comma ends the condition, which leaves the
    store with a filter it cannot read. *)
Example search_underscore_is_a_wildcard :
  (fun r => col r "id")
    <$> HomePage.products (HomePage.search "_" Examples.market HomePage.initial)
  = [VStr "p4"; VStr "p3"; VStr "p2"; VStr "p1"].
Proof. compute_done. Qed.

Example search_comma_is_unreadable :
  Store.data (Store.run_select Examples.market (HomePage.products_query None "a,b"))
  = None.
Proof. compute_done. Qed.

(** ** The images of a draft *)

Lemma trim_blank s : Spec.blank s = true → JS.trim s = "".
Proof.
  intros Hs. unfold JS.trim.
  assert (JS.trim_start s = "") as ->; [|done].
  induction s as [|c s IH]; [done|].
  simpl in *. apply andb_prop in Hs as [-> Hs]. auto.
Qed.

Lemma filter_index_skip {A} (l : list A) (k i : nat) :
  ProductFormPage.filter_index (fun j => negb (j =? k + i)%nat) k l
  = take i l ++ drop (S i) l.
Proof.
  revert k i. induction l as [|x l IH]; intros k i; [by destruct i|].
  simpl. destruct i as [|i].
  - rewrite Nat.add_0_r, Nat.eqb_refl. simpl. rewrite drop_0.
    clear IH. generalize (Nat.lt_succ_diag_r k). generalize (S k) as j.
    induction l as [|y l IH]; intros j Hj; simpl; [done|].
    destruct (j =? k)%nat eqn:Hjk; [apply Nat.eqb_eq in Hjk; lia|].
    simpl. f_equal. apply IH. lia.
  - destruct (k =? k + S i)%nat eqn:Hk; [apply Nat.eqb_eq in Hk; lia|].
    simpl. f_equal. replace (k + S i)%nat with (S k + i)%nat by lia. apply IH.
Qed.

Lemma removeImage_images index st :
  ProductFormPage.images (ProductFormPage.form (ProductFormPage.removeImage index st))
  = take index (ProductFormPage.images (ProductFormPage.form st))
    ++ drop (S index) (ProductFormPage.images (ProductFormPage.form st)).
Proof. simpl. apply (filter_index_skip _ 0 index). Qed.

Lemma removeImage_length index st :
  (length (ProductFormPage.images (ProductFormPage.form (ProductFormPage.removeImage index st)))
   ≤ length (ProductFormPage.images (ProductFormPage.form st)))%nat.
Proof. rewrite removeImage_images, length_app, length_take, length_drop. lia. Qed.

Lemma addImage_length st :
  (length (ProductFormPage.images (ProductFormPage.form st)) ≤ 5)%nat →
  (length (ProductFormPage.images (ProductFormPage.form (ProductFormPage.addImage st))) ≤ 5)%nat.
Proof.
  intros H. unfold ProductFormPage.addImage.
  destruct (JS.truthy _); simpl; [|done].
  destruct (_ <? 5)%nat eqn:Hlt; simpl; [|done].
  apply Nat.ltb_lt in Hlt. rewrite length_app. simpl. lia.
Qed.

Lemma handle_length e st :
  (length (ProductFormPage.images (ProductFormPage.form st)) ≤ 5)%nat →
  (length (ProductFormPage.images (ProductFormPage.form (ProductFormPage.handle e st))) ≤ 5)%nat.
Proof.
  intros H. destruct e; simpl; try done.
  - by apply addImage_length.
  - etrans; [apply (removeImage_length index st)|done].
Qed.

Lemma handle_all_length es st :
  (length (ProductFormPage.images (ProductFormPage.form st)) ≤ 5)%nat →
  (length (ProductFormPage.images
             (ProductFormPage.form (ProductFormPage.handle_all es st))) ≤ 5)%nat.
Proof.
  revert st. induction es as [|e es IH]; intros st H; [done|].
  simpl. by apply IH, handle_length.
Qed.

(** What [addImage] does when it does something. *)
Lemma addImage_appends st :
  JS.truthy (JS.trim (ProductFormPage.imageInput st)) = true →
  (length (ProductFormPage.images (ProductFormPage.form st)) < 5)%nat →
  ProductFormPage.images (ProductFormPage.form (ProductFormPage.addImage st))
  = ProductFormPage.images (ProductFormPage.form st) ++ [ProductFormPage.imageInput st]
  ∧ ProductFormPage.imageInput (ProductFormPage.addImage st) = "".
Proof.
  intros Ht Hlt. unfold ProductFormPage.addImage.
  apply Nat.ltb_lt in Hlt. by rewrite Ht, Hlt.
Qed.

(** C10.  Whatever the user does to a draft that started empty, it never
    holds more than 5 images.  [addImage] changes nothing when the pending
    input is empty or white space only, or when the draft holds 5 images
    (or more).  [removeImage] takes out the entry at the index and keeps
    the others in their order; nothing else of the page state changes. *)
Theorem image_handlers_keep_five :
  (∀ es,
     (length (ProductFormPage.images
                (ProductFormPage.form
                   (ProductFormPage.handle_all es ProductFormPage.initial))) ≤ 5)%nat)
  ∧ (∀ st,
       Spec.blank (ProductFormPage.imageInput st) = true
       ∨ (5 ≤ length (ProductFormPage.images (ProductFormPage.form st)))%nat →
       ProductFormPage.addImage st = st)
  ∧ (∀ index st,
       let images := ProductFormPage.images (ProductFormPage.form st) in
       ProductFormPage.removeImage index st
       = ProductFormPage.setFormData
           (ProductFormPage.with_images (take index images ++ drop (S index) images)
                                        (ProductFormPage.form st))
           st).
Proof.
  split_and!.
  - intros es. apply handle_all_length. simpl. lia.
  - intros st [Hblank|Hfull]; unfold ProductFormPage.addImage.
    + by rewrite (trim_blank _ Hblank).
    + apply Nat.ltb_ge in Hfull. by rewrite Hfull, andb_false_r.
  - intros index st images. unfold ProductFormPage.removeImage.
    by rewrite (filter_index_skip _ 0 index).
Qed.

Lemma image_handlers_keep_five_witness :
  let full :=
    ProductFormPage.handle_all
      (concat (replicate 6 [ProductFormPage.ChangeImageInput "https://example.com/a.jpg";
                            ProductFormPage.AddImage]))
      ProductFormPage.initial in
  let typed := ProductFormPage.handle (ProductFormPage.ChangeImageInput "  ")
                 ProductFormPage.initial in
  length (ProductFormPage.images (ProductFormPage.form full)) = 5%nat
  ∧ (Spec.blank (ProductFormPage.imageInput typed) = true
     ∧ ProductFormPage.addImage typed = typed)
  ∧ ((5 ≤ length (ProductFormPage.images (ProductFormPage.form full)))%nat
     ∧ ProductFormPage.addImage full = full).
Proof.
  intros full typed. split; [reflexivity|]. split.
  - split; [reflexivity|].
    apply (proj1 (proj2 image_handlers_keep_five) typed). left. reflexivity.
  - assert (5 ≤ length (ProductFormPage.images (ProductFormPage.form full)))%nat as H
      by (vm_compute; lia).
    split; [exact H|].
    apply (proj1 (proj2 image_handlers_keep_five) full). right. exact H.
Defined.

(** ** Submitting a draft *)

Section Submitting.
Variables parseFloat parseInt : string → value.

Local Abbreviation productData := (ProductFormPage.productData parseFloat parseInt).
Local Abbreviation handleSubmit := (ProductFormPage.handleSubmit parseFloat parseInt).
Local Abbreviation created := (Outcome.created parseFloat parseInt).

Lemma productData_submitted fd now c :
  c ∉ Spec.submitted → productData fd now !! c = None.
Proof.
  unfold Spec.submitted. rewrite !not_elem_of_cons. intros Hc. destruct_and!.
  unfold ProductFormPage.productData.
  rewrite !lookup_insert_ne by done. by apply lookup_singleton_ne.
Qed.

Lemma productData_submitted_Some fd now c :
  c ∈ Spec.submitted → is_Some (productData fd now !! c).
Proof.
  unfold Spec.submitted. rewrite !elem_of_cons, elem_of_nil.
  intros H. destruct_or!; subst; by eexists.
Qed.

Lemma where_id pid :
  Store.where_ (q_filters (from_ "products" .> eq_ "id" (VStr pid)))
  = Some (fun r => forallb (fun t => t r) [fun r => value_eqb (col r "id") (VStr pid)]).
Proof. reflexivity. Qed.

(** A refused request: nothing is stored, and the page shows the store's
    message. *)
Lemma handleSubmit_refused productId p now srv st e :
  Store.refusal srv = Some e →
  handleSubmit productId (Some p) now srv st = (Outcome.not_saved e st, srv, false).
Proof.
  intros Href. unfold ProductFormPage.handleSubmit.
  destruct (ProductFormPage.editing productId) as [pid|].
  - unfold Store.run_update. by rewrite Href.
  - unfold Store.run_insert. by rewrite Href.
Qed.

(** An accepted update. *)
Lemma handleSubmit_updates productId pid p now srv st stored :
  ProductFormPage.editing productId = Some pid →
  Store.refusal srv = None →
  Store.tables srv !! "products" = Some stored →
  handleSubmit productId (Some p) now srv st
  = (Outcome.saved "Product updated successfully!" st,
     Store.Server
       (<["products" :=
            Outcome.updated pid (productData (ProductFormPage.form st) now) <$> stored]>
          (Store.tables srv))
       (Store.refusal srv) (Store.clock srv) (Store.next_id srv),
     true).
Proof.
  intros Hpid Href Htab. unfold ProductFormPage.handleSubmit. rewrite Hpid.
  unfold Store.run_update. rewrite Href, where_id.
  change (q_from (from_ "products" .> eq_ "id" (VStr pid))) with "products".
  rewrite Htab. simpl. unfold Outcome.saved. do 4 f_equal.
  apply list_fmap_ext. intros _ r _. unfold Outcome.updated. simpl.
  rewrite andb_true_r.
  destruct (value_eqb (col r "id") (VStr pid)) eqn:Hid.
  - apply value_eqb_text in Hid. by rewrite decide_True.
  - rewrite decide_False; [done|]. intros Heq%value_eqb_text. congruence.
Qed.

Lemma created_id p fd now srv : col (created p fd now srv) "id" = VStr (Store.next_id srv).
Proof. reflexivity. Qed.

(** An accepted creation. *)
Lemma handleSubmit_creates productId p now srv st stored :
  ProductFormPage.editing productId = None →
  Store.refusal srv = None →
  Store.tables srv !! "products" = Some stored →
  (∀ r, r ∈ stored → col r "id" ≠ VStr (Store.next_id srv)) →
  handleSubmit productId (Some p) now srv st
  = (Outcome.saved "Product created successfully!" st,
     Store.Server
       (<["products" := stored ++ [created p (ProductFormPage.form st) now srv]]>
          (Store.tables srv))
       (Store.refusal srv) (Store.clock srv) (Store.next_id srv),
     true).
Proof.
  intros Hpid Href Htab Hfresh. unfold ProductFormPage.handleSubmit. rewrite Hpid.
  unfold Store.run_insert. rewrite Href.
  change (q_from (from_ "products")) with "products". rewrite Htab.
  fold (created p (ProductFormPage.form
                     (ProductFormPage.setMessage None
                        (ProductFormPage.setSubmitting true st))) now srv).
  rewrite created_id.
  assert (existsb (fun r' => value_eqb (col r' "id") (VStr (Store.next_id srv))) stored
          = false) as ->; [|done].
  apply not_true_is_false. intros (r & Hr & Hid)%existsb_exists.
  apply value_eqb_text in Hid. apply list_elem_of_In in Hr. by eapply Hfresh.
Qed.


(** C4.  An update that the store accepts, submitted by the seller who
    owns the product: the stored product takes the submitted columns from
    the draft, its update timestamp is the instant of the submission, and
    every other column stays as it was, among them identifier, owner and
    creation timestamp.  The other products stay as they were. *)
Theorem updateProduct_changes_submitted_only productId pid p now srv st stored :
  ProductFormPage.editing productId = Some pid →
  Store.refusal srv = None →
  Store.tables srv !! "products" = Some stored →
  ∃ stored',
    Store.tables (handleSubmit productId (Some p) now srv st).1.2 !! "products"
    = Some stored'
    ∧ length stored' = length stored
    ∧ ∀ i r, stored !! i = Some r →
        (col r "id" = VStr pid →
         col r "seller_id" = VStr (ProductFormPage.profile_id p) →
         ∃ r', stored' !! i = Some r'
           ∧ (∀ c, c ∈ Spec.submitted →
                r' !! c = productData (ProductFormPage.form st) now !! c)
           ∧ col r' "updated_at" = VTime now
           ∧ (∀ c, c ∉ Spec.submitted → r' !! c = r !! c)
           ∧ col r' "id" = col r "id"
           ∧ col r' "seller_id" = col r "seller_id"
           ∧ col r' "created_at" = col r "created_at")
        ∧ (col r "id" ≠ VStr pid → stored' !! i = Some r).
Proof.
  intros Hpid Href Htab.
  rewrite (handleSubmit_updates _ _ _ _ _ _ _ Hpid Href Htab). simpl.
  eexists. split; [apply lookup_insert_eq|]. split; [apply length_fmap|].
  intros i r Hi. rewrite list_lookup_fmap, Hi. simpl. unfold Outcome.updated. split.
  - intros Hid _. rewrite decide_True by done. eexists. split; [done|].
    assert (∀ c, c ∉ Spec.submitted →
              (productData (ProductFormPage.form st) now ∪ r) !! c = r !! c) as Hframe.
    { intros c Hc. by apply lookup_union_r, productData_submitted. }
    split_and!.
    + intros c Hc. by apply lookup_union_l', productData_submitted_Some.
    + unfold col. by rewrite lookup_union_l' by by eexists.
    + done.
    + unfold col. rewrite Hframe; [done|]. compute_done.
    + unfold col. rewrite Hframe; [done|]. compute_done.
    + unfold col. rewrite Hframe; [done|]. compute_done.
  - intros Hid. by rewrite decide_False.
Qed.



(** C7, as amended.  An update is sent without a look at who owns the
    product: the outcome is the same whoever is signed in.  It fails only
    when the store refuses the request; then the stored products are
    unchanged and the page shows the store's message. *)
Theorem updateProduct_checks_no_owner productId pid p p' now srv st :
  ProductFormPage.editing productId = Some pid →
  handleSubmit productId (Some p) now srv st
  = handleSubmit productId (Some p') now srv st
  ∧ (∀ e,
       Store.refusal srv = Some e →
       handleSubmit productId (Some p) now srv st = (Outcome.not_saved e st, srv, false)).
Proof.
  intros Hpid. split.
  - unfold ProductFormPage.handleSubmit. by rewrite Hpid.
  - intros e. apply handleSubmit_refused.
Qed.

End Submitting.

(** *** The theorems at work on the sample store *)

Lemma market_has_no_fresh r :
  r ∈ Examples.market_products → col r "id" ≠ VStr (Store.next_id Examples.market).
Proof.
  intros Hr.
  assert (Forall (fun r => col r "id" ≠ VStr (Store.next_id Examples.market))
                 Examples.market_products) as Hall by compute_done.
  by apply (proj1 (Forall_forall _ _) Hall).
Qed.

Lemma updateProduct_changes_submitted_only_witness :
  let parse := Examples.parse_digits in
  let p := {| ProductFormPage.profile_id := "S2" |} in
  let out := ProductFormPage.handleSubmit parse parse (Some "p3") (Some p) 77
               Examples.market Examples.draft in
  ProductFormPage.editing (Some "p3") = Some "p3"
  ∧ Store.refusal Examples.market = None
  ∧ Store.tables Examples.market !! "products" = Some Examples.market_products
  ∧ (fun r => (col r "id", col r "seller_id", col r "title", col r "created_at",
               col r "updated_at"))
      <$> default [] (Store.tables out.1.2 !! "products")
    = [(VStr "p1", VStr "S1", VStr "Phone case", VTime 10, VNull);
       (VStr "p2", VStr "S1", VStr "Phone", VTime 20, VNull);
       (VStr "p3", VStr "S2", VStr "Phone", VTime 30, VTime 77);
       (VStr "p4", VStr "S2", VStr "Phone", VTime 40, VNull)]
  ∧ ∃ stored',
      Store.tables out.1.2 !! "products" = Some stored'
      ∧ length stored' = length Examples.market_products.
Proof.
  intros parse p out.
  assert (Store.tables Examples.market !! "products" = Some Examples.market_products)
    as Htab by compute_done.
  split_and!; [reflexivity | reflexivity | exact Htab | compute_done |].
  destruct (updateProduct_changes_submitted_only parse parse (Some "p3") "p3" p 77
              Examples.market Examples.draft Examples.market_products
              eq_refl eq_refl Htab) as (stored' & Hstored & Hlen & _).
  exists stored'. split; [exact Hstored | exact Hlen].
Defined.




Lemma updateProduct_checks_no_owner_witness :
  let parse := Examples.parse_digits in
  let owner := {| ProductFormPage.profile_id := "S2" |} in
  let other := {| ProductFormPage.profile_id := "S1" |} in
  let down := Examples.unreachable Examples.market in
  ProductFormPage.editing (Some "p3") = Some "p3"
  ∧ ProductFormPage.handleSubmit parse parse (Some "p3") (Some other) 77
      Examples.market Examples.draft
    = ProductFormPage.handleSubmit parse parse (Some "p3") (Some owner) 77
        Examples.market Examples.draft
  ∧ Store.refusal down = Some {| Store.message := "Failed to fetch" |}
  ∧ ProductFormPage.handleSubmit parse parse (Some "p3") (Some other) 77 down
      Examples.draft
    = (Outcome.not_saved {| Store.message := "Failed to fetch" |} Examples.draft,
       down, false).
Proof.
  intros parse owner other down.
  split_and!; [reflexivity | | reflexivity |].
  - exact (proj1 (updateProduct_checks_no_owner parse parse (Some "p3") "p3" other owner
                    77 Examples.market Examples.draft eq_refl)).
  - exact (proj2 (updateProduct_checks_no_owner parse parse (Some "p3") "p3" other owner
                    77 down Examples.draft eq_refl) _ eq_refl).
Defined.

(** C7, as stated, fails: seller S1 submits an update of product p3, which
    S2 owns; the store applies it and the page reports it saved. *)
Lemma updateProduct_by_non_owner_stored :
  let parse := Examples.parse_digits in
  let other := {| ProductFormPage.profile_id := "S1" |} in
  let out := ProductFormPage.handleSubmit parse parse (Some "p3") (Some other) 77
               Examples.market Examples.draft in
  (fun r => (col r "id", col r "seller_id", col r "title"))
    <$> default [] (Store.tables Examples.market !! "products")
  = [(VStr "p1", VStr "S1", VStr "Phone case"); (VStr "p2", VStr "S1", VStr "Phone");
     (VStr "p3", VStr "S2", VStr "Laptop"); (VStr "p4", VStr "S2", VStr "Phone")]
  ∧ ProductFormPage.message out.1.1
    = Some (ProductFormPage.success, "Product updated successfully!")
  ∧ (fun r => (col r "id", col r "seller_id", col r "title"))
      <$> default [] (Store.tables out.1.2 !! "products")
    = [(VStr "p1", VStr "S1", VStr "Phone case"); (VStr "p2", VStr "S1", VStr "Phone");
       (VStr "p3", VStr "S2", VStr "Phone"); (VStr "p4", VStr "S2", VStr "Phone")].
Proof. intros parse other out. split_and!; compute_done. Qed.

(** * Further properties *)

(** ** Trimming *)

Lemma blank_rev_app s acc :
  Spec.blank (String.rev_app s acc) = Spec.blank s && Spec.blank acc.
Proof.
  revert acc. induction s as [|c s IH]; intros acc; simpl; [done|].
  rewrite IH. simpl. destruct (JS.is_white_space c), (Spec.blank s); done.
Qed.

Lemma blank_rev s : Spec.blank (String.rev s) = Spec.blank s.
Proof. unfold String.rev. rewrite blank_rev_app. simpl. apply andb_true_r. Qed.

Lemma blank_trim_start s : Spec.blank (JS.trim_start s) = Spec.blank s.
Proof.
  induction s as [|c s IH]; simpl; [done|].
  destruct (JS.is_white_space c) eqn:Hc; simpl; [done|]. by rewrite Hc.
Qed.

Lemma trim_start_blank s : Spec.blank s = true → JS.trim_start s = "".
Proof.
  induction s as [|c s IH]; simpl; [done|].
  intros [-> Hs]%andb_prop. auto.
Qed.

Lemma blank_trim s : Spec.blank (JS.trim s) = Spec.blank s.
Proof.
  unfold JS.trim, JS.trim_end.
  by rewrite blank_rev, blank_trim_start, blank_rev, blank_trim_start.
Qed.

(** [trim] leaves something exactly when the text is not blank. *)
Lemma truthy_trim s : JS.truthy (JS.trim s) = negb (Spec.blank s).
Proof.
  destruct (Spec.blank s) eqn:Hs; simpl.
  - by rewrite (trim_blank s Hs).
  - rewrite <-blank_trim in Hs. by destruct (JS.trim s).
Qed.

(** ** More on the images of a draft *)

Lemma formData_eta fd :
  ProductFormPage.FormData (ProductFormPage.title fd) (ProductFormPage.description fd)
    (ProductFormPage.price fd) (ProductFormPage.category fd)
    (ProductFormPage.stock_count fd) (ProductFormPage.condition fd)
    (ProductFormPage.images fd) = fd.
Proof. by destruct fd. Qed.

Lemma state_eta st :
  ProductFormPage.State (ProductFormPage.form st) (ProductFormPage.imageInput st)
    (ProductFormPage.submitting st) (ProductFormPage.message st) = st.
Proof. by destruct st. Qed.

(** X1.  When the pending input holds a character that is not white space
    and the draft holds fewer than 5 images, [addImage] appends the input
    as it was typed, without trimming it, empties the input and leaves the
    rest of the page state alone. *)
Theorem addImage_appends_untrimmed st :
  Spec.blank (ProductFormPage.imageInput st) = false →
  (length (ProductFormPage.images (ProductFormPage.form st)) < 5)%nat →
  ProductFormPage.addImage st
  = ProductFormPage.State
      (ProductFormPage.with_images
         (ProductFormPage.images (ProductFormPage.form st)
            ++ [ProductFormPage.imageInput st])
         (ProductFormPage.form st))
      "" (ProductFormPage.submitting st) (ProductFormPage.message st).
Proof.
  intros Hb Hlt. unfold ProductFormPage.addImage.
  rewrite truthy_trim, Hb. apply Nat.ltb_lt in Hlt. by rewrite Hlt.
Qed.

Lemma addImage_appends_untrimmed_witness :
  let st := ProductFormPage.setImageInput " a.jpg " ProductFormPage.initial in
  Spec.blank (ProductFormPage.imageInput st) = false
  ∧ (length (ProductFormPage.images (ProductFormPage.form st)) < 5)%nat
  ∧ ProductFormPage.addImage st
    = ProductFormPage.State
        (ProductFormPage.with_images
           (ProductFormPage.images (ProductFormPage.form st)
              ++ [ProductFormPage.imageInput st])
           (ProductFormPage.form st))
        "" (ProductFormPage.submitting st) (ProductFormPage.message st).
Proof.
  intros st.
  assert (length (ProductFormPage.images (ProductFormPage.form st)) < 5)%nat as Hlt
    by (vm_compute; lia).
  split; [reflexivity|]. split; [exact Hlt|].
  exact (addImage_appends_untrimmed st eq_refl Hlt).
Defined.

(** X2.  Adding an image and then removing the entry at the position the
    draft's list ended at gives back the draft as it was, whether or not
    [addImage] added anything. *)
Theorem addImage_removeImage_last st :
  ProductFormPage.form
    (ProductFormPage.removeImage
       (length (ProductFormPage.images (ProductFormPage.form st)))
       (ProductFormPage.addImage st))
  = ProductFormPage.form st.
Proof.
  set (n := length (ProductFormPage.images (ProductFormPage.form st))).
  assert (∀ st', ProductFormPage.form (ProductFormPage.removeImage n st')
                 = ProductFormPage.with_images
                     (take n (ProductFormPage.images (ProductFormPage.form st'))
                        ++ drop (S n) (ProductFormPage.images (ProductFormPage.form st')))
                     (ProductFormPage.form st')) as Hrm.
  { intros st'. unfold ProductFormPage.removeImage. simpl.
    by rewrite (filter_index_skip _ 0 n). }
  rewrite Hrm. unfold ProductFormPage.addImage. subst n.
  destruct (JS.truthy _ && _); simpl.
  - rewrite take_app_length, drop_ge by (rewrite length_app; simpl; lia).
    rewrite app_nil_r. unfold ProductFormPage.with_images. simpl.
    apply formData_eta.
  - rewrite take_ge, drop_ge by lia. rewrite app_nil_r.
    unfold ProductFormPage.with_images. apply formData_eta.
Qed.

(** X3.  [removeImage] at an index past the end changes nothing; at an
    index within the list the draft has one image less, the entries before
    the index keep their place and the entries after it move up by one. *)
Theorem removeImage_bounds index st :
  let images := ProductFormPage.images (ProductFormPage.form st) in
  let images' :=
    ProductFormPage.images (ProductFormPage.form (ProductFormPage.removeImage index st)) in
  ((length images ≤ index)%nat → ProductFormPage.removeImage index st = st)
  ∧ ((index < length images)%nat →
     S (length images') = length images
     ∧ ∀ j, images' !! j = if (j <? index)%nat then images !! j else images !! S j).
Proof.
  intros images images'. subst images'. rewrite removeImage_images. fold images.
  split.
  - intros Hge. unfold ProductFormPage.removeImage.
    rewrite (filter_index_skip _ 0 index). fold images.
    rewrite take_ge, drop_ge by lia. rewrite app_nil_r.
    unfold ProductFormPage.with_images, images. rewrite formData_eta.
    apply state_eta.
  - intros Hlt. split.
    + rewrite length_app, length_take, length_drop. lia.
    + intros j. destruct (j <? index)%nat eqn:Hj.
      * apply Nat.ltb_lt in Hj.
        rewrite lookup_app_l by (rewrite length_take; lia).
        by apply lookup_take_lt.
      * apply Nat.ltb_ge in Hj.
        rewrite lookup_app_r by (rewrite length_take; lia).
        rewrite length_take, lookup_drop. f_equal. lia.
Qed.

Lemma removeImage_bounds_witness :
  let st := Examples.crowded_draft in
  let images := ProductFormPage.images (ProductFormPage.form st) in
  ((length images ≤ 6)%nat ∧ ProductFormPage.removeImage 6 st = st)
  ∧ ((2 < length images)%nat
     ∧ ProductFormPage.images (ProductFormPage.form (ProductFormPage.removeImage 2 st))
       = ["a.jpg"; "b.jpg"; "d.jpg"; "e.jpg"; "f.jpg"]
     ∧ S (length (ProductFormPage.images
                    (ProductFormPage.form (ProductFormPage.removeImage 2 st))))
       = length images).
Proof.
  intros st images.
  assert (length images ≤ 6)%nat as Hge by (vm_compute; lia).
  assert (2 < length images)%nat as Hlt by (vm_compute; lia).
  split.
  - split; [exact Hge|]. exact (proj1 (removeImage_bounds 6 st) Hge).
  - split; [exact Hlt|]. split; [reflexivity|].
    exact (proj1 (proj2 (removeImage_bounds 2 st) Hlt)).
Defined.

Lemma handle_all_snoc es e st :
  ProductFormPage.handle_all (es ++ [e]) st
  = ProductFormPage.handle e (ProductFormPage.handle_all es st).
Proof. unfold ProductFormPage.handle_all. by rewrite foldl_app. Qed.

(** X4.  A draft that started empty holds only images that were typed
    into the image input: every image is the text of some change of that
    input, and none of them is blank. *)
Theorem images_were_typed es image :
  image ∈ ProductFormPage.images
            (ProductFormPage.form (ProductFormPage.handle_all es ProductFormPage.initial)) →
  ProductFormPage.ChangeImageInput image ∈ es ∧ Spec.blank image = false.
Proof.
  revert image.
  assert (∀ image,
            (image ∈ ProductFormPage.images
                       (ProductFormPage.form
                          (ProductFormPage.handle_all es ProductFormPage.initial)) →
             ProductFormPage.ChangeImageInput image ∈ es ∧ Spec.blank image = false)
            ∧ (ProductFormPage.imageInput
                 (ProductFormPage.handle_all es ProductFormPage.initial) = image →
               image = "" ∨ ProductFormPage.ChangeImageInput image ∈ es)) as H;
    [|intros image; apply H].
  induction es as [|e es IH] using rev_ind; intros image.
  - split; [by intros ?%elem_of_nil|]. intros <-. by left.
  - rewrite handle_all_snoc.
    set (st := ProductFormPage.handle_all es ProductFormPage.initial) in *.
    assert (∀ image,
              image ∈ ProductFormPage.images (ProductFormPage.form st) →
              ProductFormPage.ChangeImageInput image ∈ es ++ [e]
              ∧ Spec.blank image = false) as Hkeep.
    { intros i Hi. destruct (proj1 (IH i) Hi). split; [|done].
      apply elem_of_app. by left. }
    assert (∀ image,
              ProductFormPage.imageInput st = image →
              image = "" ∨ ProductFormPage.ChangeImageInput image ∈ es ++ [e]) as Hinput.
    { intros i Hi. destruct (proj2 (IH i) Hi); [by left|right].
      apply elem_of_app. by left. }
    destruct e; simpl; try (split; [apply Hkeep | apply Hinput]).
    + split; [apply Hkeep|]. intros <-. right. apply elem_of_app. right. by left.
    + unfold ProductFormPage.addImage. rewrite truthy_trim.
      destruct (Spec.blank (ProductFormPage.imageInput st)) eqn:Hb; simpl;
        [split; [apply Hkeep | apply Hinput]|].
      destruct (_ <? 5)%nat; simpl; [|split; [apply Hkeep | apply Hinput]].
      split; [|intros <-; by left].
      intros [Hi| ->%list_elem_of_singleton]%elem_of_app; [by apply Hkeep|].
      split; [|done]. destruct (Hinput _ eq_refl) as [Hempty|]; [|done].
      by rewrite Hempty in Hb.
    + split; [|apply Hinput]. rewrite (filter_index_skip _ 0 index).
      intros [Hi%subseteq_take|Hi%subseteq_drop]%elem_of_app; by apply Hkeep.
Qed.

Lemma images_were_typed_witness :
  let es := [ProductFormPage.ChangeImageInput " a.jpg "; ProductFormPage.AddImage;
             ProductFormPage.ChangeImageInput "b.jpg"; ProductFormPage.AddImage;
             ProductFormPage.RemoveImage 0] in
  "b.jpg" ∈ ProductFormPage.images
              (ProductFormPage.form (ProductFormPage.handle_all es ProductFormPage.initial))
  ∧ ProductFormPage.ChangeImageInput "b.jpg" ∈ es
  ∧ Spec.blank "b.jpg" = false.
Proof.
  intros es.
  assert ("b.jpg" ∈ ProductFormPage.images
                     (ProductFormPage.form
                        (ProductFormPage.handle_all es ProductFormPage.initial))) as H
    by compute_done.
  split; [exact H|]. exact (images_were_typed es "b.jpg" H).
Defined.

(** ** More on submitting a draft *)

Lemma server_eta srv :
  Store.Server (Store.tables srv) (Store.refusal srv) (Store.clock srv)
               (Store.next_id srv) = srv.
Proof. by destruct srv. Qed.

Lemma or_else_nonempty a : JS.or_else a "Failed to save product" ≠ "".
Proof. unfold JS.or_else. by destruct a. Qed.

Section SubmittingMore.
Variables parseFloat parseInt : string → value.

Local Abbreviation productData := (ProductFormPage.productData parseFloat parseInt).
Local Abbreviation handleSubmit := (ProductFormPage.handleSubmit parseFloat parseInt).
Local Abbreviation created := (Outcome.created parseFloat parseInt).

(** A submission for which the store has no products table. *)
Lemma handleSubmit_no_table productId p now srv st :
  Store.refusal srv = None →
  Store.tables srv !! "products" = None →
  handleSubmit productId (Some p) now srv st
  = (Outcome.not_saved Store.unknown_relation st, srv, false).
Proof.
  intros Href Htab. unfold ProductFormPage.handleSubmit.
  destruct (ProductFormPage.editing productId) as [pid|].
  - unfold Store.run_update. rewrite Href.
    change (q_from (from_ "products" .> eq_ "id" (VStr pid))) with "products".
    by rewrite Htab.
  - unfold Store.run_insert. rewrite Href.
    change (q_from (from_ "products")) with "products". by rewrite Htab.
Qed.

(** A creation whose identifier is taken. *)
Lemma handleSubmit_duplicate productId p now srv st stored :
  ProductFormPage.editing productId = None →
  Store.refusal srv = None →
  Store.tables srv !! "products" = Some stored →
  ¬ (∀ r, r ∈ stored → col r "id" ≠ VStr (Store.next_id srv)) →
  handleSubmit productId (Some p) now srv st
  = (Outcome.not_saved Store.duplicate_key st, srv, false).
Proof.
  intros Hpid Href Htab Hdup. unfold ProductFormPage.handleSubmit. rewrite Hpid.
  unfold Store.run_insert. rewrite Href.
  change (q_from (from_ "products")) with "products". rewrite Htab.
  fold (created p (ProductFormPage.form
                     (ProductFormPage.setMessage None
                        (ProductFormPage.setSubmitting true st))) now srv).
  rewrite created_id.
  destruct (existsb _ stored) eqn:Hex; [done|]. exfalso. apply Hdup.
  intros r Hr Hid. apply not_true_iff_false in Hex. apply Hex.
  apply existsb_exists. exists r. split; [by apply list_elem_of_In|].
  by apply value_eqb_text.
Qed.

(** The ways a submission by a signed-in user can end. *)
Lemma handleSubmit_cases productId p now srv st :
  (∃ e, handleSubmit productId (Some p) now srv st = (Outcome.not_saved e st, srv, false))
  ∨ (∃ pid stored,
       ProductFormPage.editing productId = Some pid
       ∧ Store.tables srv !! "products" = Some stored
       ∧ handleSubmit productId (Some p) now srv st
         = (Outcome.saved "Product updated successfully!" st,
            Store.Server
              (<["products" :=
                   Outcome.updated pid (productData (ProductFormPage.form st) now)
                   <$> stored]> (Store.tables srv))
              (Store.refusal srv) (Store.clock srv) (Store.next_id srv),
            true))
  ∨ (∃ stored,
       ProductFormPage.editing productId = None
       ∧ Store.tables srv !! "products" = Some stored
       ∧ handleSubmit productId (Some p) now srv st
         = (Outcome.saved "Product created successfully!" st,
            Store.Server
              (<["products" := stored ++ [created p (ProductFormPage.form st) now srv]]>
                 (Store.tables srv))
              (Store.refusal srv) (Store.clock srv) (Store.next_id srv),
            true)).
Proof.
  assert ((∃ e, Store.refusal srv = Some e) ∨ Store.refusal srv = None)
    as [[e Href]|Href] by (destruct (Store.refusal srv); eauto).
  { left. exists e. by apply handleSubmit_refused. }
  assert (Store.tables srv !! "products" = None
          ∨ ∃ stored, Store.tables srv !! "products" = Some stored)
    as [Htab|[stored Htab]] by (destruct (Store.tables srv !! "products"); eauto).
  { left. eexists. by apply handleSubmit_no_table. }
  destruct (ProductFormPage.editing productId) as [pid|] eqn:Hpid.
  { right. left. exists pid, stored. split_and!; [done..|].
    by apply handleSubmit_updates. }
  destruct (decide (Forall (fun r => col r "id" ≠ VStr (Store.next_id srv)) stored))
    as [Hfresh|Hdup].
  - right. right. exists stored. split_and!; [done..|].
    apply handleSubmit_creates; [done..|]. by apply Forall_forall.
  - left. eexists. eapply handleSubmit_duplicate; [done..|].
    intros Hfresh. by apply Hdup, Forall_forall.
Qed.

(** X5.  However a submission ends, the draft is as it was.  Without a
    signed-in user nothing happens at all.  With one, the page ends up not
    submitting, and either it shows a success message and completion is
    scheduled, or it shows a failure message, never an empty one, nothing
    is scheduled and the store is as it was. *)
Theorem handleSubmit_outcome productId profile now srv st :
  let out := handleSubmit productId profile now srv st in
  ProductFormPage.form out.1.1 = ProductFormPage.form st
  ∧ ProductFormPage.imageInput out.1.1 = ProductFormPage.imageInput st
  ∧ match profile with
    | None => out = (st, srv, false)
    | Some _ =>
      ProductFormPage.submitting out.1.1 = false
      ∧ ((out.2 = true
          ∧ ∃ text, ProductFormPage.message out.1.1
                    = Some (ProductFormPage.success, text))
         ∨ (out.2 = false
            ∧ out.1.2 = srv
            ∧ ∃ text, ProductFormPage.message out.1.1
                      = Some (ProductFormPage.failure, text)
                      ∧ text ≠ ""))
    end.
Proof.
  intros out. subst out. destruct profile as [p|]; [|done].
  destruct (handleSubmit_cases productId p now srv st)
    as [(e & ->)|[(pid & stored & _ & _ & ->)|(stored & _ & _ & ->)]]; simpl.
  - split_and!; [done..|]. right. split_and!; [done..|].
    eexists. split; [done|]. apply or_else_nonempty.
  - split_and!; [done..|]. left. eauto.
  - split_and!; [done..|]. left. eauto.
Qed.

(** X6.  A submission deletes no row and rewrites no column but the
    submitted ones, in any table: every stored row is still there at its
    place, with every other column as it was, among them identifier,
    owner, status and creation timestamp. *)
Theorem handleSubmit_keeps_rows productId profile now srv st table stored :
  Store.tables srv !! table = Some stored →
  ∃ stored',
    Store.tables (handleSubmit productId profile now srv st).1.2 !! table = Some stored'
    ∧ ∀ i r, stored !! i = Some r →
        ∃ r', stored' !! i = Some r'
              ∧ ∀ c, c ∉ Spec.submitted → r' !! c = r !! c.
Proof.
  intros Htab.
  assert (∃ stored',
            Store.tables srv !! table = Some stored'
            ∧ ∀ i r, stored !! i = Some r →
                ∃ r', stored' !! i = Some r'
                      ∧ ∀ c, c ∉ Spec.submitted → r' !! c = r !! c) as Hsame.
  { exists stored. split; [done|]. intros i r Hi. by exists r. }
  destruct profile as [p|]; [|done].
  destruct (handleSubmit_cases productId p now srv st)
    as [(e & ->)|[(pid & old & _ & Hold & ->)|(old & _ & Hold & ->)]]; simpl;
    [done|..].
  - destruct (decide (table = "products")) as [->|Hne];
      [|by rewrite lookup_insert_ne]. simplify_eq.
    eexists. split; [apply lookup_insert_eq|].
    intros i r Hi. rewrite list_lookup_fmap, Hi. simpl.
    eexists. split; [done|]. intros c Hc. unfold Outcome.updated.
    case_decide; [|done]. by apply lookup_union_r, productData_submitted.
  - destruct (decide (table = "products")) as [->|Hne];
      [|by rewrite lookup_insert_ne]. simplify_eq.
    eexists. split; [apply lookup_insert_eq|].
    intros i r Hi. exists r. split; [|done].
    by apply lookup_app_l_Some.
Qed.

Lemma updated_missing pid payload (stored : list row) :
  (∀ r, r ∈ stored → col r "id" ≠ VStr pid) →
  Outcome.updated pid payload <$> stored = stored.
Proof.
  intros Hmiss. induction stored as [|r stored IH]; [done|].
  rewrite fmap_cons, IH by (intros ??; apply Hmiss; by right).
  unfold Outcome.updated. rewrite decide_False; [done|]. apply Hmiss. by left.
Qed.

(** X7.  An update of an identifier that no stored product bears is
    reported as a success all the same, and the store is as it was. *)
Theorem updateProduct_of_missing_id productId pid p now srv st stored :
  ProductFormPage.editing productId = Some pid →
  Store.refusal srv = None →
  Store.tables srv !! "products" = Some stored →
  (∀ r, r ∈ stored → col r "id" ≠ VStr pid) →
  handleSubmit productId (Some p) now srv st
  = (Outcome.saved "Product updated successfully!" st, srv, true).
Proof.
  intros Hpid Href Htab Hmiss.
  rewrite (handleSubmit_updates _ _ productId pid p now srv st stored Hpid Href Htab).
  rewrite updated_missing by done.
  by rewrite insert_id, server_eta.
Qed.

Lemma updated_twice pid fd1 now1 fd2 now2 r :
  Outcome.updated pid (productData fd2 now2) (Outcome.updated pid (productData fd1 now1) r)
  = Outcome.updated pid (productData fd2 now2) r.
Proof.
  unfold Outcome.updated. destruct (decide (col r "id" = VStr pid)) as [Hid|Hid].
  - rewrite decide_True.
    + apply map_eq. intros c.
      destruct (decide (c ∈ Spec.submitted)) as [Hc|Hc].
      * rewrite !lookup_union_l' by by apply productData_submitted_Some. done.
      * rewrite !lookup_union_r by by apply productData_submitted. done.
    + unfold col. rewrite lookup_union_r; [done|].
      apply productData_submitted. compute_done.
  - by rewrite decide_False.
Qed.

(** X8.  The last write wins: after two accepted updates of the same
    product, the store is as if only the second had been made. *)
Theorem updateProduct_last_write_wins productId pid p1 p2 now1 now2 srv st1 st2 stored :
  ProductFormPage.editing productId = Some pid →
  Store.refusal srv = None →
  Store.tables srv !! "products" = Some stored →
  (handleSubmit productId (Some p2) now2
     (handleSubmit productId (Some p1) now1 srv st1).1.2 st2).1.2
  = (handleSubmit productId (Some p2) now2 srv st2).1.2.
Proof.
  intros Hpid Href Htab.
  rewrite (handleSubmit_updates _ _ productId pid p1 now1 srv st1 stored Hpid Href Htab).
  rewrite (handleSubmit_updates _ _ productId pid p2 now2 srv st2 stored Hpid Href Htab).
  cbn [fst snd].
  erewrite handleSubmit_updates; [|done|done|apply lookup_insert_eq]. cbn [fst snd].
  simpl. rewrite insert_insert_eq. do 2 f_equal.
  rewrite <-list_fmap_compose. apply list_fmap_ext. intros _ r _. simpl.
  apply updated_twice.
Qed.

End SubmittingMore.

(** ** From the form to the listing *)

Section SubmitThenList.
Variables parseFloat parseInt : string → value.

Local Abbreviation handleSubmit := (ProductFormPage.handleSubmit parseFloat parseInt).
Local Abbreviation created := (Outcome.created parseFloat parseInt).

Lemma created_listed_unfiltered p fd now srv :
  Spec.listed None "" (created p fd now srv).
Proof. split_and!; [reflexivity | by intros ? [=] | done]. Qed.

Lemma created_no_category_id p fd now srv :
  col (created p fd now srv) "category_id" = VNull.
Proof. reflexivity. Qed.

(** X9.  A product created through the form shows in the unfiltered
    listing loaded next, when fewer than 50 products were stored before. *)
Theorem created_product_is_listed productId p now srv st stored home :
  ProductFormPage.editing productId = None →
  Store.refusal srv = None →
  Store.tables srv !! "products" = Some stored →
  (∀ r, r ∈ stored → col r "id" ≠ VStr (Store.next_id srv)) →
  (length stored < 50)%nat →
  HomePage.chosen (HomePage.selectedCategory home) = None →
  HomePage.searchQuery home = "" →
  created p (ProductFormPage.form st) now srv
  ∈ HomePage.products
      (HomePage.loadProducts (handleSubmit productId (Some p) now srv st).1.2 home).
Proof.
  intros Hpid Href Htab Hfresh Hlen Hcat Hq.
  rewrite (handleSubmit_creates _ _ _ _ _ _ _ _ Hpid Href Htab Hfresh).
  cbn [fst snd].
  erewrite loadProducts_shown;
    [|by rewrite Hq|done|apply lookup_insert_eq].
  rewrite take_ge.
  2: { rewrite stable_sort_length.
       etrans; [apply List.filter_length_le|]. rewrite length_app. simpl. lia. }
  apply stable_sort_elem_of, list_elem_of_In, filter_In. split.
  - apply list_elem_of_In, elem_of_app. right. by left.
  - apply satisfies_listed; [by rewrite Hq|].
    destruct (created_listed_unfiltered p (ProductFormPage.form st) now srv)
      as (Hstatus & _ & _).
    split_and!; [done | by rewrite Hcat | by rewrite Hq].
Qed.

(** X10.  The form stores the category of a draft in the column
    [category]; the listing filters a selected category on the column
    [category_id].  So no answer to a listing request with a selected
    category holds a row as the form creates it. *)
Theorem created_product_under_no_category p fd now srv0 srv c searchQuery rows :
  JS.truthy c = true →
  Store.data (Store.run_select srv (HomePage.products_query (Some c) searchQuery))
  = Some rows →
  created p fd now srv0 ∉ rows.
Proof.
  intros Hc (stored & _ & _ & ->)%products_query_answer Hin.
  apply subseteq_take, stable_sort_elem_of, list_elem_of_In, filter_In in Hin
    as [_ Hsat].
  apply satisfies_holds in Hsat.
  destruct (products_query_parts (Some c) searchQuery) as (_ & _ & _ & Hf).
  rewrite Hf in Hsat. simpl in Hsat. rewrite Hc in Hsat.
  apply Forall_cons in Hsat as [_ Hsat]. apply Forall_cons in Hsat as [Hcat _].
  apply holds_eq_text in Hcat. by rewrite created_no_category_id in Hcat.
Qed.

End SubmitThenList.

(** ** More on the loads of HomePage *)

(** X11.  The two loads write different parts of the page state: in
    whichever order their answers arrive the page ends up the same, and
    loading the products again from the same store changes nothing. *)
Theorem loads_commute srv srv' st :
  HomePage.loadCategories srv (HomePage.loadProducts srv' st)
  = HomePage.loadProducts srv' (HomePage.loadCategories srv st)
  ∧ HomePage.loadProducts srv' (HomePage.loadProducts srv' st)
    = HomePage.loadProducts srv' st.
Proof.
  unfold HomePage.loadCategories, HomePage.loadProducts.
  cbn [HomePage.selectedCategory HomePage.searchQuery HomePage.setLoading
       HomePage.setProducts HomePage.setCategories].
  destruct (Store.data (Store.run_select srv HomePage.categories_query)) as [cs|];
    destruct (Store.data (Store.run_select srv' _)) as [ps|] eqn:Hp;
    cbn [HomePage.selectedCategory HomePage.searchQuery HomePage.setLoading
         HomePage.setProducts HomePage.setCategories];
    by rewrite ?Hp.
Qed.

(** X12.  Whatever the search text, the products of an answered load are
    stored products that are active and, when a category is selected, of
    that category. *)
Theorem loadProducts_only_active srv st rows r :
  Store.data (Store.run_select srv
    (HomePage.products_query (HomePage.selectedCategory st) (HomePage.searchQuery st)))
  = Some rows →
  r ∈ HomePage.products (HomePage.loadProducts srv st) →
  (∃ stored, Store.tables srv !! "products" = Some stored ∧ r ∈ stored)
  ∧ col r "status" = VStr "active"
  ∧ ∀ c, HomePage.chosen (HomePage.selectedCategory st) = Some c →
         col r "category_id" = VStr c.
Proof.
  intros Hdata. rewrite (loadProducts_answered _ _ _ Hdata). simpl.
  apply products_query_answer in Hdata as (stored & _ & Htab & ->).
  intros [Hr Hsat]%subseteq_take%stable_sort_elem_of%list_elem_of_In%filter_In.
  apply list_elem_of_In in Hr. apply satisfies_holds in Hsat.
  destruct (products_query_parts (HomePage.selectedCategory st) (HomePage.searchQuery st))
    as (_ & _ & _ & Hf).
  rewrite Hf in Hsat. apply Forall_cons in Hsat as [Hstatus Hsat].
  apply Forall_app in Hsat as [Hcat _]. apply holds_eq_text in Hstatus.
  split_and!; [by exists stored | done |].
  intros c Hc. rewrite Hc, Forall_singleton in Hcat.
  by apply holds_eq_text in Hcat.
Qed.

Lemma loadProducts_only_active_witness :
  let srv := Examples.market in
  let st := HomePage.State [] [] true (Some "electronics") "_" in
  let r := Examples.product "p3" "S2" "Laptop" "electronics" 30 in
  Store.data (Store.run_select srv
    (HomePage.products_query (HomePage.selectedCategory st) (HomePage.searchQuery st)))
  = Some (HomePage.products (HomePage.loadProducts srv st))
  ∧ r ∈ HomePage.products (HomePage.loadProducts srv st)
  ∧ (∃ stored, Store.tables srv !! "products" = Some stored ∧ r ∈ stored)
  ∧ col r "status" = VStr "active"
  ∧ ∀ c, HomePage.chosen (HomePage.selectedCategory st) = Some c →
         col r "category_id" = VStr c.
Proof.
  intros srv st r.
  assert (Store.data (Store.run_select srv
            (HomePage.products_query (HomePage.selectedCategory st)
                                     (HomePage.searchQuery st)))
          = Some (HomePage.products (HomePage.loadProducts srv st))) as Hdata
    by compute_done.
  assert (r ∈ HomePage.products (HomePage.loadProducts srv st)) as Hr by compute_done.
  split; [exact Hdata|]. split; [exact Hr|].
  exact (loadProducts_only_active srv st _ r Hdata Hr).
Defined.

Lemma lower_string_truthy a b :
  Spec.lower_string a = Spec.lower_string b → JS.truthy a = JS.truthy b.
Proof. by destruct a, b. Qed.

Lemma listed_lower selectedCategory a b r :
  Spec.lower_string a = Spec.lower_string b →
  Spec.listed selectedCategory a r → Spec.listed selectedCategory b r.
Proof.
  intros Hab (Hstatus & Hcat & Hq). split_and!; [done..|].
  intros Hb.
  assert (∀ column, Spec.mentions a r column → Spec.mentions b r column) as Hm.
  { intros column (text & Htext & pre & mid & post & -> & Hmid).
    exists (pre +:+ mid +:+ post). split; [done|].
    exists pre, mid, post. split; [done|]. congruence. }
  destruct Hq as [H|H].
  - intros ->. destruct b; [done|discriminate].
  - left. by apply Hm.
  - right. by apply Hm.
Qed.

(** X13.  The search does not tell letter case in the search text apart:
    two plain search texts that differ in letter case only load the same
    products. *)
Theorem search_ignores_case srv st a b :
  Spec.plain a = true →
  Spec.plain b = true →
  Spec.lower_string a = Spec.lower_string b →
  HomePage.products (HomePage.search a srv st)
  = HomePage.products (HomePage.search b srv st).
Proof.
  intros Ha Hb Hab. unfold HomePage.search.
  assert ((∃ e, Store.refusal srv = Some e) ∨ Store.refusal srv = None)
    as [[e Href]|Href] by (destruct (Store.refusal srv); eauto).
  { unfold HomePage.loadProducts. by rewrite !(run_select_refused srv _ e Href). }
  assert (Store.tables srv !! "products" = None
          ∨ ∃ stored, Store.tables srv !! "products" = Some stored)
    as [Htab|[stored Htab]] by (destruct (Store.tables srv !! "products"); eauto).
  { unfold HomePage.loadProducts, Store.run_select. simpl. rewrite Href.
    destruct (products_query_parts (HomePage.selectedCategory st) a) as (-> & _).
    destruct (products_query_parts (HomePage.selectedCategory st) b) as (-> & _).
    by rewrite Htab. }
  rewrite !(loadProducts_shown srv _ stored) by done. simpl.
  do 2 f_equal. apply List.filter_ext. intros r.
  apply eq_true_iff_eq.
  rewrite !satisfies_listed by done.
  split; by apply listed_lower.
Qed.

Lemma search_ignores_case_witness :
  Spec.plain "PHONE" = true
  ∧ Spec.plain "phone" = true
  ∧ Spec.lower_string "PHONE" = Spec.lower_string "phone"
  ∧ HomePage.products (HomePage.search "PHONE" Examples.market HomePage.initial)
    = HomePage.products (HomePage.search "phone" Examples.market HomePage.initial).
Proof.
  split_and!; [reflexivity..|].
  exact (search_ignores_case Examples.market HomePage.initial "PHONE" "phone"
           eq_refl eq_refl eq_refl).
Defined.

(** ** The page over a run of events *)

Lemma answer_bounded_newest_first srv selectedCategory searchQuery rows :
  Store.data (Store.run_select srv (HomePage.products_query selectedCategory searchQuery))
  = Some rows →
  (length rows ≤ 50)%nat
  ∧ StronglySorted Spec.newest_first rows
  ∧ Forall (fun r => col r "status" = VStr "active") rows.
Proof.
  intros (stored & _ & _ & ->)%products_query_answer. split_and!.
  - rewrite length_take. lia.
  - apply StronglySorted_take.
    eapply StronglySorted_weaken;
      [|apply stable_sort_strongly; [apply clause_leb_total | apply clause_leb_trans]].
    intros a b Hab. unfold Spec.newest_first. by apply Is_true_true.
  - apply Forall_forall.
    intros r [_ Hsat]%subseteq_take%stable_sort_elem_of%list_elem_of_In%filter_In.
    apply satisfies_holds in Hsat.
    destruct (products_query_parts selectedCategory searchQuery) as (_ & _ & _ & Hf).
    rewrite Hf in Hsat. apply Forall_cons in Hsat as [Hstatus _].
    by apply holds_eq_text in Hstatus.
Qed.

Lemma loadProducts_ok srv st : page_ok st → page_ok (HomePage.loadProducts srv st).
Proof.
  intros [Hproducts Hselected].
  destruct (Store.data (Store.run_select srv
              (HomePage.products_query (HomePage.selectedCategory st)
                                       (HomePage.searchQuery st))))
    as [rows|] eqn:Hdata.
  - rewrite (loadProducts_answered _ _ _ Hdata). split; [|done]. simpl.
    by eapply answer_bounded_newest_first.
  - by rewrite (loadProducts_unanswered _ _ Hdata).
Qed.

Lemma mount_ok srv : page_ok (HomePage.mount srv).
Proof.
  unfold HomePage.mount. do 2 apply loadProducts_ok.
  unfold HomePage.loadCategories.
  destruct (Store.data _); (split; [|done]); simpl;
    (split_and!; [lia | constructor | constructor]).
Qed.

Lemma handle_ok e srv st : page_ok st → page_ok (HomeView.handle e srv st).
Proof.
  intros Hok. destruct e as [|position|text]; simpl.
  - case_decide; [done|]. apply loadProducts_ok.
    destruct Hok as [Hproducts _]. by split.
  - destruct (HomePage.categories st !! position) as [c|] eqn:Hc; [|done].
    case_decide; [done|]. apply loadProducts_ok.
    destruct Hok as [Hproducts _]. split; [done|]. simpl.
    intros selected Hsel. exists c. split; [by eapply list_elem_of_lookup_2|].
    unfold HomeView.category_id in Hsel. by destruct (col c "id"); simplify_eq.
  - case_decide; [done|]. apply loadProducts_ok.
    destruct Hok as [Hproducts Hselected]. by split.
Qed.

Lemma run_ok srv es : page_ok (HomeView.run srv es).
Proof.
  unfold HomeView.run. generalize (mount_ok srv). generalize (HomePage.mount srv).
  induction es as [|e es IH]; intros st Hok; [done|].
  simpl. by apply IH, handle_ok.
Qed.

(** X14.  Whatever the user clicks and types, and whether the store
    answers or not, the page never shows more than 50 products, shows them
    newest first, and shows only products it received as active. *)
Theorem page_always_bounded_newest_first srv es :
  let shown := HomePage.products (HomeView.run srv es) in
  (length shown ≤ 50)%nat
  ∧ StronglySorted Spec.newest_first shown
  ∧ Forall (fun r => col r "status" = VStr "active") shown.
Proof. apply run_ok. Qed.

(** X15.  The selected category is always one of the categories on the
    page, so the heading always finds the category it names: it is never
    [undefined]. *)
Theorem heading_always_defined srv es :
  is_Some (HomeView.heading (HomeView.run srv es)).
Proof.
  destruct (run_ok srv es) as [_ Hselected].
  unfold HomeView.heading.
  destruct (HomePage.chosen _) as [selected|] eqn:Hchosen.
  - destruct (List.find _ _) as [c|] eqn:Hfind; [by eexists|]. exfalso.
    assert (HomePage.selectedCategory (HomeView.run srv es) = Some selected) as Hsel.
    { unfold HomePage.chosen in Hchosen.
      destruct (HomePage.selectedCategory _) as [s|]; [|done].
      by destruct (JS.truthy s); simplify_eq. }
    destruct (Hselected _ Hsel) as (c & Hc & Hid).
    apply list_elem_of_In in Hc.
    pose proof (find_none _ _ Hfind c Hc) as Hno. simpl in Hno.
    by rewrite bool_decide_eq_true_2 in Hno.
  - destruct (JS.truthy _); by eexists.
Qed.

(** ** Loading the product to edit *)

Lemma product_query_answer srv pid stored :
  Store.refusal srv = None →
  Store.tables srv !! "products" = Some stored →
  Store.data (Store.run_select srv (ProductEdit.product_query pid))
  = Some (filter (fun r => col r "id" = VStr pid) stored).
Proof.
  intros Href Htab. unfold Store.run_select. rewrite Href.
  change (q_from (ProductEdit.product_query pid)) with "products". rewrite Htab.
  simpl. f_equal. clear. induction stored as [|r stored IH]; [done|].
  simpl. rewrite filter_cons, andb_true_r, IH.
  destruct (value_eqb (col r "id") (VStr pid)) eqn:Hid.
  - apply value_eqb_text in Hid. by rewrite decide_True.
  - rewrite decide_False; [done|]. intros Heq%value_eqb_text. congruence.
Qed.

Section Loading.
Variables parseFloat parseInt : string → value.
Variable toString : Qc → string.

Local Abbreviation productData := (ProductFormPage.productData parseFloat parseInt).
Local Abbreviation handleSubmit := (ProductFormPage.handleSubmit parseFloat parseInt).
Local Abbreviation created := (Outcome.created parseFloat parseInt).
Local Abbreviation loadProduct := (ProductEdit.loadProduct toString).
Local Abbreviation fill := (ProductEdit.fill toString).

(** X16.  When the store does not hold exactly one product with the
    identifier to edit (none, or several), or does not answer, the form
    stays as it was and the loading flag is cleared; without an identifier
    to edit nothing happens. *)
Theorem loadProduct_without_single_match productId srv pg :
  (ProductFormPage.editing productId = None → loadProduct productId srv pg = Some pg)
  ∧ (∀ pid,
       ProductFormPage.editing productId = Some pid →
       (Store.refusal srv ≠ None
        ∨ ∃ stored, Store.tables srv !! "products" = Some stored
                    ∧ length (filter (fun r => col r "id" = VStr pid) stored) ≠ 1%nat) →
       loadProduct productId srv pg
       = Some (ProductEdit.Page (ProductEdit.form_state pg) false)).
Proof.
  split; unfold ProductEdit.loadProduct.
  - by intros ->.
  - intros pid -> Hsrv.
    assert ((ProductEdit.run_maybe_single srv (ProductEdit.product_query pid)).1 = None)
      as ->; [|done].
    unfold ProductEdit.run_maybe_single.
    destruct Hsrv as [Href|(stored & Htab & Hlen)].
    + destruct (Store.refusal srv) as [e|] eqn:He; [|done].
      by rewrite (run_select_refused srv _ e He).
    + destruct (Store.refusal srv) as [e|] eqn:He.
      { by rewrite (run_select_refused srv _ e He). }
      rewrite (product_query_answer srv pid stored He Htab).
      by destruct (filter _ stored) as [|? [|??]].
Qed.

Lemma filter_fresh pid (stored : list row) r :
  (∀ r0, r0 ∈ stored → col r0 "id" ≠ VStr pid) →
  col r "id" = VStr pid →
  filter (fun r => col r "id" = VStr pid) (stored ++ [r]) = [r].
Proof.
  intros Hfresh Hid. rewrite filter_app, filter_cons, decide_True by done.
  rewrite filter_nil.
  assert (filter (fun r => col r "id" = VStr pid) stored = []) as ->; [|done].
  induction stored as [|r0 stored IH]; [done|].
  rewrite filter_cons, decide_False by (apply Hfresh; by left).
  apply IH. intros ??. apply Hfresh. by right.
Qed.

(** X17.  A product created through the form, opened for editing: the
    form shows the title, description, category, condition and images of
    the draft as they were submitted, and for the price and the stock
    count the numbers they were read as, printed again. *)
Theorem created_product_loads_back productId p now srv st stored price stock pg :
  ProductFormPage.editing productId = None →
  Store.refusal srv = None →
  Store.tables srv !! "products" = Some stored →
  (∀ r, r ∈ stored → col r "id" ≠ VStr (Store.next_id srv)) →
  JS.truthy (Store.next_id srv) = true →
  parseFloat (ProductFormPage.price (ProductFormPage.form st)) = VNum price →
  parseInt (ProductFormPage.stock_count (ProductFormPage.form st)) = VNum stock →
  loadProduct (Some (Store.next_id srv))
    (handleSubmit productId (Some p) now srv st).1.2 pg
  = Some (ProductEdit.Page
            (ProductFormPage.setFormData
               (ProductFormPage.FormData
                  (ProductFormPage.title (ProductFormPage.form st))
                  (ProductFormPage.description (ProductFormPage.form st))
                  (toString price)
                  (ProductFormPage.category (ProductFormPage.form st))
                  (toString stock)
                  (ProductFormPage.condition (ProductFormPage.form st))
                  (ProductFormPage.images (ProductFormPage.form st)))
               (ProductEdit.form_state pg))
            false).
Proof.
  intros Hpid Href Htab Hfresh Hid Hprice Hstock.
  rewrite (handleSubmit_creates _ _ productId p now srv st stored Hpid Href Htab Hfresh).
  cbn [fst snd]. unfold ProductEdit.loadProduct.
  assert (ProductFormPage.editing (Some (Store.next_id srv)) = Some (Store.next_id srv))
    as ->.
  { simpl. by rewrite Hid. }
  unfold ProductEdit.run_maybe_single.
  erewrite product_query_answer; [|done|apply lookup_insert_eq].
  rewrite filter_fresh by done. cbn [fst Store.data].
  assert (fill (created p (ProductFormPage.form st) now srv)
          = Some (ProductFormPage.FormData
                    (ProductFormPage.title (ProductFormPage.form st))
                    (ProductFormPage.description (ProductFormPage.form st))
                    (toString price)
                    (ProductFormPage.category (ProductFormPage.form st))
                    (toString stock)
                    (ProductFormPage.condition (ProductFormPage.form st))
                    (ProductFormPage.images (ProductFormPage.form st)))) as ->;
    [|done].
  unfold ProductEdit.fill.
  change (col (created p (ProductFormPage.form st) now srv) "price")
    with (parseFloat (ProductFormPage.price (ProductFormPage.form st))).
  change (col (created p (ProductFormPage.form st) now srv) "stock_count")
    with (parseInt (ProductFormPage.stock_count (ProductFormPage.form st))).
  by rewrite Hprice, Hstock.
Qed.

Lemma col_lookup (r : row) c v : col r c = v → v ≠ VNull → r !! c = Some v.
Proof. unfold col. destruct (r !! c); simpl; congruence. Qed.

Lemma fill_inv r fd :
  fill r = Some fd →
  col r "title" = VStr (ProductFormPage.title fd)
  ∧ col r "description" = VStr (ProductFormPage.description fd)
  ∧ col r "category" = VStr (ProductFormPage.category fd)
  ∧ col r "condition" = VStr (ProductFormPage.condition fd)
  ∧ (∃ price, col r "price" = VNum price ∧ ProductFormPage.price fd = toString price)
  ∧ (∃ stock, col r "stock_count" = VNum stock
              ∧ ProductFormPage.stock_count fd = toString stock)
  ∧ (col r "images" = VArr (ProductFormPage.images fd)
     ∨ col r "images" = VNull ∧ ProductFormPage.images fd = []).
Proof.
  unfold ProductEdit.fill.
  destruct (col r "title"); try done.
  destruct (col r "description"); try done.
  destruct (col r "price"); try done.
  destruct (col r "category"); try done.
  destruct (col r "stock_count"); try done.
  destruct (col r "condition"); try done.
  destruct (col r "images"); intros [= <-]; simpl;
    split_and!; eauto.
Qed.

(** X18.  Opening the one stored product with the identifier to edit and
    saving the form untouched rewrites the product with what it held:
    apart from the update timestamp every column is as before, provided
    that the stored numbers print and parse back to themselves and that
    the stored image list is not [null]. *)
Theorem loaded_product_saved_unchanged productId pid p now srv stored r fd pg :
  ProductFormPage.editing productId = Some pid →
  Store.refusal srv = None →
  Store.tables srv !! "products" = Some stored →
  filter (fun r => col r "id" = VStr pid) stored = [r] →
  fill r = Some fd →
  col r "images" ≠ VNull →
  (∀ price, col r "price" = VNum price → parseFloat (toString price) = VNum price) →
  (∀ stock, col r "stock_count" = VNum stock → parseInt (toString stock) = VNum stock) →
  let loaded := ProductFormPage.setFormData fd (ProductEdit.form_state pg) in
  loadProduct productId srv pg = Some (ProductEdit.Page loaded false)
  ∧ ∃ stored',
      Store.tables (handleSubmit productId (Some p) now srv loaded).1.2 !! "products"
      = Some stored'
      ∧ ∀ i, stored !! i = Some r →
          ∃ r', stored' !! i = Some r'
                ∧ col r' "updated_at" = VTime now
                ∧ ∀ c, c ≠ "updated_at" → r' !! c = r !! c.
Proof.
  intros Hpid Href Htab Hone Hfill Himages Hprice Hstock loaded. split.
  - unfold ProductEdit.loadProduct, ProductEdit.run_maybe_single.
    rewrite Hpid, (product_query_answer srv pid stored Href Htab), Hone.
    cbn [fst Store.data]. by rewrite Hfill.
  - rewrite (handleSubmit_updates _ _ productId pid p now srv loaded stored
               Hpid Href Htab).
    cbn [fst snd]. eexists. split; [apply lookup_insert_eq|].
    intros i Hi. rewrite list_lookup_fmap, Hi. simpl.
    assert (col r "id" = VStr pid) as Hid.
    { assert (r ∈ filter (fun r => col r "id" = VStr pid) stored) as Hr
        by (rewrite Hone; by left).
      by apply list_elem_of_filter in Hr as [? _]. }
    unfold Outcome.updated. rewrite decide_True by done.
    eexists. split; [done|]. split.
    { unfold col. by rewrite lookup_union_l' by by eexists. }
    intros c Hc.
    destruct (decide (c ∈ Spec.submitted)) as [Hin|Hout].
    2: { by apply lookup_union_r, productData_submitted. }
    rewrite lookup_union_l' by by apply productData_submitted_Some.
    destruct (fill_inv r fd Hfill)
      as (Htitle & Hdescription & Hcategory & Hcondition
          & (price & Hp & Hpt) & (stock & Hs & Hst) & Himg).
    destruct Himg as [Himg|[Himg _]]; [|done].
    unfold Spec.submitted in Hin. rewrite !elem_of_cons, elem_of_nil in Hin.
    destruct_or!; subst; try done; symmetry; simpl.
    + by apply col_lookup.
    + by apply col_lookup.
    + change (productData fd now !! "price")
        with (Some (parseFloat (ProductFormPage.price fd))).
      rewrite Hpt, (Hprice _ Hp). by apply col_lookup.
    + by apply col_lookup.
    + change (productData fd now !! "stock_count")
        with (Some (parseInt (ProductFormPage.stock_count fd))).
      rewrite Hst, (Hstock _ Hs). by apply col_lookup.
    + by apply col_lookup.
    + by apply col_lookup.
Qed.

End Loading.

Lemma loadProduct_without_single_match_witness :
  let pg := ProductEdit.start (Some "p9") in
  ProductFormPage.editing (Some "p9") = Some "p9"
  ∧ (∃ stored, Store.tables Examples.market !! "products" = Some stored
               ∧ length (filter (fun r => col r "id" = VStr "p9") stored) ≠ 1%nat)
  ∧ ProductEdit.loadProduct Samples.show_number (Some "p9") Examples.market pg
    = Some (ProductEdit.Page (ProductEdit.form_state pg) false).
Proof.
  intros pg.
  assert (∃ stored, Store.tables Examples.market !! "products" = Some stored
                    ∧ length (filter (fun r => col r "id" = VStr "p9") stored) ≠ 1%nat)
    as H.
  { exists Examples.market_products. split; compute_done. }
  split; [reflexivity|]. split; [exact H|].
  exact (proj2 (loadProduct_without_single_match Samples.show_number (Some "p9") Examples.market pg)
           "p9" eq_refl (or_intror H)).
Defined.

(** ** The header *)

Lemma run_calls p role es showMenu c :
  c ∈ (Header.run p role es showMenu).2 →
  match c with
  | Header.CallSearch text => Header.onSearch p = true ∧ Header.TypeSearch text ∈ es
  | Header.CallMenuClick => Header.onMenuClick p = true ∧ Header.ClickMenu ∈ es
  | Header.CallProfileClick =>
    Header.onProfileClick p = true ∧ Header.ClickMyProfile ∈ es
  | Header.CallDashboardClick =>
    Header.onDashboardClick p = true ∧ Header.is_seller role = true
  | Header.CallSignOut => Header.ClickLogout ∈ es
  end.
Proof.
  revert showMenu. induction es as [|e es IH]; intros showMenu; simpl.
  { by intros ?%elem_of_nil. }
  assert (c ∈ (Header.run p role es showMenu).2 ∨
          (∃ m, c ∈ (Header.run p role es m).2) →
          match c with
          | Header.CallSearch text =>
            Header.onSearch p = true ∧ Header.TypeSearch text ∈ e :: es
          | Header.CallMenuClick =>
            Header.onMenuClick p = true ∧ Header.ClickMenu ∈ e :: es
          | Header.CallProfileClick =>
            Header.onProfileClick p = true ∧ Header.ClickMyProfile ∈ e :: es
          | Header.CallDashboardClick =>
            Header.onDashboardClick p = true ∧ Header.is_seller role = true
          | Header.CallSignOut => Header.ClickLogout ∈ e :: es
          end) as Hrest.
  { intros [H|[m H]]; apply IH in H; destruct c; try done;
      try (destruct H; split; [done|by right]); by right. }
  destruct (Header.rendered role showMenu e) eqn:Hr; [|by intros H; apply Hrest; left].
  destruct (Header.handle p e showMenu) as [showMenu' calls] eqn:Hh.
  destruct (Header.run p role es showMenu') as [final calls'] eqn:Hrun. simpl.
  intros [Hc|Hc]%elem_of_app.
  2: { apply Hrest. right. exists showMenu'. by rewrite Hrun. }
  unfold Header.handle, Header.optional in Hh.
  destruct e; simplify_eq/=.
  - destruct (Header.onSearch p) eqn:Hp; [|by apply elem_of_nil in Hc].
    apply list_elem_of_singleton in Hc as ->. split; [done|by left].
  - destruct (Header.onMenuClick p) eqn:Hp; [|by apply elem_of_nil in Hc].
    apply list_elem_of_singleton in Hc as ->. split; [done|by left].
  - destruct (Header.onDashboardClick p) eqn:Hp; [|by apply elem_of_nil in Hc].
    by apply list_elem_of_singleton in Hc as ->.
  - by apply elem_of_nil in Hc.
  - destruct (Header.onProfileClick p) eqn:Hp; [|by apply elem_of_nil in Hc].
    apply list_elem_of_singleton in Hc as ->. split; [done|by left].
  - apply list_elem_of_singleton in Hc as ->. by left.
Qed.

(** X19.  The header calls the dashboard callback for sellers only, and
    makes a call only for something the user did: whatever the run of
    events, a dashboard call means that the user is a seller, a sign-out
    that the user clicked Logout, and a search call that its text was
    typed. *)
Theorem header_calls_are_caused p role es :
  let calls := (Header.run p role es false).2 in
  (Header.CallDashboardClick ∈ calls → role = Some "seller")
  ∧ (Header.CallSignOut ∈ calls → Header.ClickLogout ∈ es)
  ∧ (∀ text, Header.CallSearch text ∈ calls → Header.TypeSearch text ∈ es).
Proof.
  intros calls. split_and!.
  - intros [_ H]%run_calls. by apply bool_decide_eq_true in H.
  - by intros H%run_calls.
  - by intros text [_ H]%run_calls.
Qed.

Lemma header_calls_are_caused_witness :
  let p := Header.Props true false false true in
  let es := [Header.TypeSearch "phone"; Header.ClickDashboard; Header.ClickAvatar;
             Header.ClickLogout] in
  let calls := (Header.run p (Some "seller") es false).2 in
  calls = [Header.CallSearch "phone"; Header.CallDashboardClick; Header.CallSignOut]
  ∧ (Header.CallDashboardClick ∈ calls ∧ Some "seller" = Some "seller")
  ∧ (Header.CallSignOut ∈ calls ∧ Header.ClickLogout ∈ es)
  ∧ (Header.CallSearch "phone" ∈ calls ∧ Header.TypeSearch "phone" ∈ es).
Proof.
  intros p es calls.
  assert (Header.CallDashboardClick ∈ calls) as Hd by compute_done.
  assert (Header.CallSignOut ∈ calls) as Hs by compute_done.
  assert (Header.CallSearch "phone" ∈ calls) as Hq by compute_done.
  destruct (header_calls_are_caused p (Some "seller") es) as (Hd' & Hs' & Hq').
  split; [reflexivity|]. split; [|split].
  - split; [exact Hd | exact (Hd' Hd)].
  - split; [exact Hs | exact (Hs' Hs)].
  - split; [exact Hq | exact (Hq' "phone" Hq)].
Defined.

(** *** The further theorems at work on the sample store *)

Lemma market_tables :
  Store.tables Examples.market !! "products" = Some Examples.market_products.
Proof. compute_done. Qed.

Lemma market_has_no_p9 r :
  r ∈ Examples.market_products → col r "id" ≠ VStr "p9".
Proof.
  intros Hr.
  assert (Forall (fun r => col r "id" ≠ VStr "p9") Examples.market_products) as Hall
    by compute_done.
  by apply (proj1 (Forall_forall _ _) Hall).
Qed.

Lemma handleSubmit_keeps_rows_witness :
  let parse := Examples.parse_digits in
  let p := {| ProductFormPage.profile_id := "S1" |} in
  Store.tables Examples.market !! "products" = Some Examples.market_products
  ∧ ∃ stored',
      Store.tables (ProductFormPage.handleSubmit parse parse (Some "p3") (Some p) 77
                      Examples.market Examples.draft).1.2 !! "products"
      = Some stored'
      ∧ ∀ i r, Examples.market_products !! i = Some r →
          ∃ r', stored' !! i = Some r'
                ∧ ∀ c, c ∉ Spec.submitted → r' !! c = r !! c.
Proof.
  intros parse p. split; [exact market_tables|].
  exact (handleSubmit_keeps_rows parse parse (Some "p3") (Some p) 77 Examples.market
           Examples.draft "products" Examples.market_products market_tables).
Defined.

Lemma updateProduct_of_missing_id_witness :
  let parse := Examples.parse_digits in
  let p := {| ProductFormPage.profile_id := "S1" |} in
  ProductFormPage.editing (Some "p9") = Some "p9"
  ∧ Store.refusal Examples.market = None
  ∧ Store.tables Examples.market !! "products" = Some Examples.market_products
  ∧ (∀ r, r ∈ Examples.market_products → col r "id" ≠ VStr "p9")
  ∧ ProductFormPage.handleSubmit parse parse (Some "p9") (Some p) 77
      Examples.market Examples.draft
    = (Outcome.saved "Product updated successfully!" Examples.draft,
       Examples.market, true).
Proof.
  intros parse p.
  split_and!; [reflexivity | reflexivity | exact market_tables | exact market_has_no_p9 |].
  exact (updateProduct_of_missing_id parse parse (Some "p9") "p9" p 77 Examples.market
           Examples.draft Examples.market_products eq_refl eq_refl market_tables
           market_has_no_p9).
Defined.

Lemma updateProduct_last_write_wins_witness :
  let parse := Examples.parse_digits in
  let p1 := {| ProductFormPage.profile_id := "S1" |} in
  let p2 := {| ProductFormPage.profile_id := "S2" |} in
  ProductFormPage.editing (Some "p3") = Some "p3"
  ∧ Store.refusal Examples.market = None
  ∧ Store.tables Examples.market !! "products" = Some Examples.market_products
  ∧ (ProductFormPage.handleSubmit parse parse (Some "p3") (Some p2) 78
       (ProductFormPage.handleSubmit parse parse (Some "p3") (Some p1) 77
          Examples.market Examples.crowded_draft).1.2 Examples.draft).1.2
    = (ProductFormPage.handleSubmit parse parse (Some "p3") (Some p2) 78
         Examples.market Examples.draft).1.2.
Proof.
  intros parse p1 p2.
  split_and!; [reflexivity | reflexivity | exact market_tables |].
  exact (updateProduct_last_write_wins parse parse (Some "p3") "p3" p1 p2 77 78
           Examples.market Examples.crowded_draft Examples.draft
           Examples.market_products eq_refl eq_refl market_tables).
Defined.

Lemma created_product_is_listed_witness :
  let parse := Examples.parse_digits in
  let p := {| ProductFormPage.profile_id := "S1" |} in
  ProductFormPage.editing None = None
  ∧ Store.refusal Examples.market = None
  ∧ Store.tables Examples.market !! "products" = Some Examples.market_products
  ∧ (∀ r, r ∈ Examples.market_products → col r "id" ≠ VStr (Store.next_id Examples.market))
  ∧ (length Examples.market_products < 50)%nat
  ∧ HomePage.chosen (HomePage.selectedCategory HomePage.initial) = None
  ∧ HomePage.searchQuery HomePage.initial = ""
  ∧ Outcome.created parse parse p (ProductFormPage.form Examples.draft) 77 Examples.market
    ∈ HomePage.products
        (HomePage.loadProducts
           (ProductFormPage.handleSubmit parse parse None (Some p) 77
              Examples.market Examples.draft).1.2 HomePage.initial).
Proof.
  intros parse p.
  assert (length Examples.market_products < 50)%nat as Hlen by (vm_compute; lia).
  split_and!; [reflexivity | reflexivity | exact market_tables
               | exact market_has_no_fresh | exact Hlen | reflexivity | reflexivity |].
  exact (created_product_is_listed parse parse None p 77 Examples.market Examples.draft
           Examples.market_products HomePage.initial eq_refl eq_refl market_tables
           market_has_no_fresh Hlen eq_refl eq_refl).
Defined.

Lemma created_product_under_no_category_witness :
  let parse := Examples.parse_digits in
  let p := {| ProductFormPage.profile_id := "S1" |} in
  let srv := (ProductFormPage.handleSubmit parse parse None (Some p) 77
                Examples.market Examples.draft).1.2 in
  let rows := HomePage.products
                (HomePage.pick_category (Some "electronics") srv HomePage.initial) in
  JS.truthy "electronics" = true
  ∧ Store.data (Store.run_select srv (HomePage.products_query (Some "electronics") ""))
    = Some rows
  ∧ (fun r => col r "id") <$> rows = [VStr "p3"; VStr "p2"; VStr "p1"]
  ∧ Outcome.created parse parse p (ProductFormPage.form Examples.draft) 77 Examples.market
    ∉ rows.
Proof.
  intros parse p srv rows.
  assert (Store.data (Store.run_select srv
            (HomePage.products_query (Some "electronics") "")) = Some rows) as Hdata
    by compute_done.
  split_and!; [reflexivity | exact Hdata | compute_done |].
  exact (created_product_under_no_category parse parse p
           (ProductFormPage.form Examples.draft) 77 Examples.market srv
           "electronics" "" rows eq_refl Hdata).
Defined.

Lemma created_product_loads_back_witness :
  let parse := Examples.parse_digits in
  let p := {| ProductFormPage.profile_id := "S1" |} in
  let pg := ProductEdit.start (Some "fresh") in
  ProductFormPage.editing None = None
  ∧ Store.refusal Examples.market = None
  ∧ Store.tables Examples.market !! "products" = Some Examples.market_products
  ∧ (∀ r, r ∈ Examples.market_products → col r "id" ≠ VStr (Store.next_id Examples.market))
  ∧ JS.truthy (Store.next_id Examples.market) = true
  ∧ parse (ProductFormPage.price (ProductFormPage.form Examples.draft))
    = VNum (Qc_of_Z 150)
  ∧ parse (ProductFormPage.stock_count (ProductFormPage.form Examples.draft))
    = VNum (Qc_of_Z 3)
  ∧ ProductEdit.loadProduct Samples.show_number (Some (Store.next_id Examples.market))
      (ProductFormPage.handleSubmit parse parse None (Some p) 77
         Examples.market Examples.draft).1.2 pg
    = Some (ProductEdit.Page
              (ProductFormPage.setFormData
                 (ProductFormPage.FormData
                    (ProductFormPage.title (ProductFormPage.form Examples.draft))
                    (ProductFormPage.description (ProductFormPage.form Examples.draft))
                    (Samples.show_number (Qc_of_Z 150))
                    (ProductFormPage.category (ProductFormPage.form Examples.draft))
                    (Samples.show_number (Qc_of_Z 3))
                    (ProductFormPage.condition (ProductFormPage.form Examples.draft))
                    (ProductFormPage.images (ProductFormPage.form Examples.draft)))
                 (ProductEdit.form_state pg))
              false).
Proof.
  intros parse p pg.
  split_and!; [reflexivity | reflexivity | exact market_tables
               | exact market_has_no_fresh | reflexivity | reflexivity | reflexivity |].
  exact (created_product_loads_back parse parse Samples.show_number None p 77
           Examples.market Examples.draft Examples.market_products
           (Qc_of_Z 150) (Qc_of_Z 3) pg eq_refl eq_refl market_tables
           market_has_no_fresh eq_refl eq_refl eq_refl).
Defined.

Lemma loaded_product_saved_unchanged_witness :
  let parse := Examples.parse_digits in
  let show := Samples.show_number in
  let p := {| ProductFormPage.profile_id := "S1" |} in
  let r := Outcome.created parse parse p (ProductFormPage.form Examples.draft) 77
             Examples.market in
  let stored := Examples.market_products ++ [r] in
  let srv := Examples.store_of stored [] in
  let fd := ProductFormPage.form Examples.draft in
  let pg := ProductEdit.start (Some "fresh") in
  let loaded := ProductFormPage.setFormData fd (ProductEdit.form_state pg) in
  ProductFormPage.editing (Some "fresh") = Some "fresh"
  ∧ Store.refusal srv = None
  ∧ Store.tables srv !! "products" = Some stored
  ∧ filter (fun r => col r "id" = VStr "fresh") stored = [r]
  ∧ ProductEdit.fill show r = Some fd
  ∧ col r "images" ≠ VNull
  ∧ (∀ price, col r "price" = VNum price → parse (show price) = VNum price)
  ∧ (∀ stock, col r "stock_count" = VNum stock → parse (show stock) = VNum stock)
  ∧ ProductEdit.loadProduct show (Some "fresh") srv pg
    = Some (ProductEdit.Page loaded false)
  ∧ ∃ stored',
      Store.tables (ProductFormPage.handleSubmit parse parse (Some "fresh") (Some p) 99
                      srv loaded).1.2 !! "products"
      = Some stored'
      ∧ ∀ i, stored !! i = Some r →
          ∃ r', stored' !! i = Some r'
                ∧ col r' "updated_at" = VTime 99
                ∧ ∀ c, c ≠ "updated_at" → r' !! c = r !! c.
Proof.
  intros parse show p r stored srv fd pg loaded.
  assert (Store.tables srv !! "products" = Some stored) as Htab by compute_done.
  assert (filter (fun r => col r "id" = VStr "fresh") stored = [r]) as Hone
    by compute_done.
  assert (ProductEdit.fill show r = Some fd) as Hfill by (vm_compute; reflexivity).
  assert (col r "images" ≠ VNull) as Himages by (vm_compute; discriminate).
  assert (∀ price, col r "price" = VNum price → parse (show price) = VNum price)
    as Hprice.
  { intros price Hp.
    assert (col r "price" = VNum (Qc_of_Z 150)) as H150 by reflexivity.
    rewrite H150 in Hp. injection Hp as <-. reflexivity. }
  assert (∀ stock, col r "stock_count" = VNum stock → parse (show stock) = VNum stock)
    as Hstock.
  { intros stock Hs.
    assert (col r "stock_count" = VNum (Qc_of_Z 3)) as H3 by reflexivity.
    rewrite H3 in Hs. injection Hs as <-. reflexivity. }
  split_and!; [reflexivity | reflexivity | exact Htab | exact Hone | exact Hfill
               | exact Himages | exact Hprice | exact Hstock | |];
    apply (loaded_product_saved_unchanged parse parse show (Some "fresh") "fresh" p 99
             srv stored r fd pg eq_refl eq_refl Htab Hone Hfill Himages Hprice Hstock).
Defined.
